(** * Schema synthesis and request entities of jabong/go-restful:
      [swagger/model_builder.go] and [request.go]

    A shallow embedding of the swagger model builder.  The builder walks a
    Go type through the [reflect] package and fills a registry
    [map[string]Model].

    - [GoStrings]: the functions of Go's [strings] package the builder
      calls ([Contains], [Split], [Replace]);
    - [reflect]: type descriptors with the methods the builder calls on a
      [reflect.Type] and a [reflect.StructField];
    - the swagger data types [Model], [ModelProperty], [Item];
    - the builder itself, function by function, in an error monad, the
      registry passed as explicit state, the recursion of [addModel] cut
      off by fuel;
    - the vocabulary of the specification and a sample program;
    - the properties: the invariants of [addModel] (growth of the registry,
      shape of the properties), idempotence of registration, the JSON names,
      the post-build hook, cycles through pointers and embedded structs, and
      the places where the code departs from its specification (arrays of
      primitives, the primitive test, omitempty, pointers to slices).

    And of [request.go]: the values [Validate] walks through
    [reflect.Value], [Validate] itself (its recursion cut off by fuel as
    well, and shown to end on every value), the request with its cached
    body, attributes and path parameters, and [ReadEntity] over decoders
    and readers that are left open. *)

From Stdlib Require Import String Ascii List Bool Arith Lia DecimalString.
From stdpp Require Import base option list gmap strings fin_maps.

(* ===================================================================== *)
(** * Go's [strings] package *)
(* ===================================================================== *)

Module GoStrings.

(** [strings.Contains(s, substr)]: [substr] occurs somewhere within [s]. *)
Fixpoint Contains (s substr : string) : bool :=
  String.prefix substr s ||
  match s with
  | EmptyString => false
  | String _ s' => Contains s' substr
  end.

(** [strings.Split(s, sep)] for a separator of one byte (the builder only
    splits on a comma).  The result is never empty: [Split "" sep = [""]]. *)
Fixpoint Split (s : string) (sep : ascii) : list string :=
  match s with
  | EmptyString => [EmptyString]
  | String c s' =>
      if Ascii.eqb c sep then EmptyString :: Split s' sep
      else match Split s' sep with
           | x :: xs => String c x :: xs
           | [] => [String c EmptyString]
           end
  end.

(** [strings.Replace(s, old, new, -1)] for a non-empty [old]: every
    non-overlapping occurrence, from the left.  [skip] counts the bytes of a
    match that are still to be dropped. *)
Fixpoint replace_from (old new s : string) (skip : nat) : string :=
  match s with
  | EmptyString => EmptyString
  | String c s' =>
      match skip with
      | S k => replace_from old new s' k
      | O =>
          if String.prefix old s
          then new +:+ replace_from old new s' (String.length old - 1)
          else String c (replace_from old new s' 0)
      end
  end.

Definition Replace (s old new : string) : string := replace_from old new s 0.

(** The slice expression [s[1:]]. *)
Definition tail1 (s : string) : string :=
  match s with
  | EmptyString => EmptyString
  | String _ s' => s'
  end.

End GoStrings.

(* ===================================================================== *)
(** * Go's [reflect] package, as far as the builder looks at it *)
(* ===================================================================== *)

Module reflect.

Inductive Kind : Set :=
  | Invalid | Bool | Int | Int8 | Int16 | Int32 | Int64
  | Uint | Uint8 | Uint16 | Uint32 | Uint64 | Uintptr
  | Float32 | Float64 | Complex64 | Complex128
  | Array | Chan | Func | Interface | Map | Ptr | Slice
  | String | Struct | UnsafePointer.

(** [Kind.String()]; for a predeclared type it is also its name. *)
Definition KindString (k : Kind) : string :=
  match k with
  | Invalid => "invalid" | Bool => "bool" | Int => "int" | Int8 => "int8"
  | Int16 => "int16" | Int32 => "int32" | Int64 => "int64"
  | Uint => "uint" | Uint8 => "uint8" | Uint16 => "uint16"
  | Uint32 => "uint32" | Uint64 => "uint64" | Uintptr => "uintptr"
  | Float32 => "float32" | Float64 => "float64"
  | Complex64 => "complex64" | Complex128 => "complex128"
  | Array => "array" | Chan => "chan" | Func => "func"
  | Interface => "interface" | Map => "map" | Ptr => "ptr"
  | Slice => "slice" | String => "string" | Struct => "struct"
  | UnsafePointer => "unsafe.Pointer"
  end.

Definition KindCode (k : Kind) : nat :=
  match k with
  | Invalid => 0 | Bool => 1 | Int => 2 | Int8 => 3 | Int16 => 4
  | Int32 => 5 | Int64 => 6 | Uint => 7 | Uint8 => 8 | Uint16 => 9
  | Uint32 => 10 | Uint64 => 11 | Uintptr => 12 | Float32 => 13
  | Float64 => 14 | Complex64 => 15 | Complex128 => 16 | Array => 17
  | Chan => 18 | Func => 19 | Interface => 20 | Map => 21 | Ptr => 22
  | Slice => 23 | String => 24 | Struct => 25 | UnsafePointer => 26
  end.

(** The comparison [k1 == k2] of two kinds. *)
Definition Kind_eqb (k1 k2 : Kind) : bool := Nat.eqb (KindCode k1) (KindCode k2).

(** A struct tag in the conventional [key:"value"] format, already parsed:
    [Get] returns the value of a key and the empty string when the key is
    absent, as [StructTag.Get] does. *)
Definition StructTag : Type := list (string * string).

Definition Get (tag : StructTag) (key : string) : string :=
  match List.find (fun kv => String.eqb (fst kv) key) tag with
  | Some kv => snd kv
  | None => EmptyString
  end.

(** Type descriptors.  A declared type [pkg.name] is a reference into the
    program's type declarations, so that declarations may refer to each
    other and to themselves.  An unnamed struct type carries the text that
    [String()] reports for it; [Other] stands for the channel, function and
    interface types, of which the builder only reads kind, name and text. *)
Inductive rtype : Type :=
  | Basic (k : Kind)
  | Defined (pkg name : string)
  | SliceOf (elem : rtype)
  | ArrayOf (len : nat) (elem : rtype)
  | PtrTo (elem : rtype)
  | MapOf (key elem : rtype)
  | StructOf (str : string) (fields : list StructField)
  | Other (k : Kind) (name str : string)
with StructField : Type :=
  | mkField (name : string) (type : rtype) (tag : StructTag) (anonymous : bool).

Definition FieldName (f : StructField) : string :=
  match f with mkField n _ _ _ => n end.
Definition FieldType (f : StructField) : rtype :=
  match f with mkField _ t _ _ => t end.
Definition FieldTag (f : StructField) : StructTag :=
  match f with mkField _ _ t _ => t end.
Definition FieldAnonymous (f : StructField) : bool :=
  match f with mkField _ _ _ a => a end.

(** [Type.Name()]: the declared name, empty for an unnamed type. *)
Definition TypeName (t : rtype) : string :=
  match t with
  | Basic k => KindString k
  | Defined _ name => name
  | Other _ name _ => name
  | _ => EmptyString
  end.

(** [Type.String()]. *)
Fixpoint TypeString (t : rtype) : string :=
  match t with
  | Basic k => KindString k
  | Defined pkg name => pkg +:+ "." +:+ name
  | SliceOf e => "[]" +:+ TypeString e
  | ArrayOf n e =>
      "[" +:+ NilZero.string_of_uint (Nat.to_uint n) +:+ "]" +:+ TypeString e
  | PtrTo e => "*" +:+ TypeString e
  | MapOf k e => "map[" +:+ TypeString k +:+ "]" +:+ TypeString e
  | StructOf str _ => str
  | Other _ _ str => str
  end.

Definition kind_of_literal (t : rtype) : Kind :=
  match t with
  | Basic k => k
  | Defined _ _ => Invalid
  | SliceOf _ => Slice
  | ArrayOf _ _ => Array
  | PtrTo _ => Ptr
  | MapOf _ _ => Map
  | StructOf _ _ => Struct
  | Other k _ _ => k
  end.

Definition elem_of_literal (t : rtype) : option rtype :=
  match t with
  | SliceOf e | ArrayOf _ e | PtrTo e | MapOf _ e => Some e
  | _ => None
  end.

Definition fields_of_literal (t : rtype) : option (list StructField) :=
  match t with
  | StructOf _ fs => Some fs
  | _ => None
  end.

Section Declarations.

(** The type declarations of the program: [decls pkg name] is the
    underlying type of [pkg.name]. *)
Variable decls : string -> string -> option rtype.

Definition underlying (t : rtype) : option rtype :=
  match t with
  | Defined pkg name => decls pkg name
  | _ => Some t
  end.

(** [Type.Kind()]. *)
Definition TypeKind (t : rtype) : Kind :=
  match underlying t with
  | Some u => kind_of_literal u
  | None => Invalid
  end.

(** [Type.Elem()]; [None] where Go panics. *)
Definition TypeElem (t : rtype) : option rtype :=
  match underlying t with
  | Some u => elem_of_literal u
  | None => None
  end.

(** The fields [Field(0) .. Field(NumField()-1)]; [None] where Go panics. *)
Definition TypeFields (t : rtype) : option (list StructField) :=
  match underlying t with
  | Some u => fields_of_literal u
  | None => None
  end.

End Declarations.

End reflect.

(* ===================================================================== *)
(** * The swagger data types *)
(* ===================================================================== *)

(** Modelled from the spec: the declarations of [Item], [ModelProperty] and
    [Model] are in a file of the package that is not part of the sources at
    hand; the fields are those the builder reads and writes, with the types
    it uses them at.  A Go [*string] is an [option string], [*Item] an
    [option Item]. *)
Record Item : Type := mkItem {
  Item_Type : option string;
  Item_Ref : option string
}.

Record ModelProperty : Type := mkModelProperty {
  Type_ : option string;
  Format : string;
  Ref : option string;
  Items : option Item;
  Description : string
}.

Record Model : Type := mkModel {
  Id : string;
  Required : list string;
  Properties : gmap string ModelProperty
}.

(** The zero values [ModelProperty{}] and [Model{}].  A nil map reads like
    an empty one, and a nil slice like an empty one. *)
Definition zeroProperty : ModelProperty := mkModelProperty None "" None None "".
Definition zeroModel : Model := mkModel "" [] ∅.

Definition setType (ty : string) (p : ModelProperty) : ModelProperty :=
  mkModelProperty (Some ty) (Format p) (Ref p) (Items p) (Description p).
Definition setFormat (fmt : string) (p : ModelProperty) : ModelProperty :=
  mkModelProperty (Type_ p) fmt (Ref p) (Items p) (Description p).
Definition setRef (r : string) (p : ModelProperty) : ModelProperty :=
  mkModelProperty (Type_ p) (Format p) (Some r) (Items p) (Description p).
Definition setItems (it : Item) (p : ModelProperty) : ModelProperty :=
  mkModelProperty (Type_ p) (Format p) (Ref p) (Some it) (Description p).
Definition setDescription (d : string) (p : ModelProperty) : ModelProperty :=
  mkModelProperty (Type_ p) (Format p) (Ref p) (Items p) d.

Definition appendRequired (name : string) (m : Model) : Model :=
  mkModel (Id m) (Required m ++ [name]) (Properties m).
Definition putProperty (name : string) (p : ModelProperty) (m : Model) : Model :=
  mkModel (Id m) (Required m) (<[name := p]> (Properties m)).

(** The registry [modelBuilder.Models]. *)
Abbreviation Models := (gmap string Model).

(* ===================================================================== *)
(** * Results of the builder *)
(* ===================================================================== *)

(** The Go code has no error value; what can go wrong is a panic of
    [reflect] (or of a nil dereference) and, in the embedding, a recursion
    cut off by its fuel. *)
Inductive error : Set := OutOfFuel | Panicked.

Inductive result (A : Type) : Type :=
  | Ok (a : A)
  | Err (e : error).
Arguments Ok {A} a.
Arguments Err {A} e.

#[global] Instance result_ret : MRet result := @Ok.
#[global] Instance result_bind : MBind result :=
  fun A B f m => match m with Ok a => f a | Err e => Err e end.

Definition orPanic {A : Type} (o : option A) : result A :=
  match o with
  | Some a => Ok a
  | None => Err Panicked
  end.

(** A loop over a list whose body may fail. *)
Fixpoint foldResult {A S : Type} (body : S -> A -> result S) (s : S) (l : list A)
  : result S :=
  match l with
  | [] => Ok s
  | x :: l' => s' ← body s x; foldResult body s' l'
  end.

(* ===================================================================== *)
(** * The lookup tables and the field annotations *)
(* ===================================================================== *)

Definition primitiveNames : string :=
  "uint8 uint16 uint32 uint64 int int8 int16 int32 int64 float32 float64 bool string byte rune time.Time".

Definition isPrimitiveType (modelName : string) : bool :=
  GoStrings.Contains primitiveNames modelName.

Definition lookupTable (table : list (string * string)) (key : string) : option string :=
  match List.find (fun kv => String.eqb (fst kv) key) table with
  | Some kv => Some (snd kv)
  | None => None
  end.

Definition schemaTypeMap : list (string * string) :=
  [ ("uint8", "integer"); ("uint16", "integer"); ("uint32", "integer");
    ("uint64", "integer");
    ("int", "integer"); ("int8", "integer"); ("int16", "integer");
    ("int32", "integer"); ("int64", "integer");
    ("byte", "integer"); ("float64", "number"); ("float32", "number");
    ("bool", "boolean"); ("time.Time", "string") ].

Definition jsonSchemaType (modelName : string) : string :=
  match lookupTable schemaTypeMap modelName with
  | Some mapped => mapped
  | None => modelName
  end.

Definition schemaFormatMap : list (string * string) :=
  [ ("int", "int32"); ("int32", "int32"); ("int64", "int64");
    ("byte", "byte"); ("uint8", "byte"); ("float64", "double");
    ("float32", "float"); ("time.Time", "date-time") ].

Definition jsonSchemaFormat (modelName : string) : string :=
  match lookupTable schemaFormatMap modelName with
  | Some mapped => mapped
  | None => ""
  end.

Definition jsonTagOf (field : reflect.StructField) : string :=
  reflect.Get (reflect.FieldTag field) "json".

(** The element [s[i]] of a split tag, where the code has checked the
    length before. *)
Definition part (s : list string) (i : nat) : string := nth i s "".

Definition isPropertyRequired (field : reflect.StructField) : bool :=
  let jsonTag := jsonTagOf field in
  if negb (String.eqb jsonTag "") then
    let s := GoStrings.Split jsonTag "," in
    if (1 <? length s) && String.eqb (part s 1) "omitempty" then false else true
  else true.

Definition jsonNameOfField (field : reflect.StructField) : string :=
  let jsonTag := jsonTagOf field in
  if negb (String.eqb jsonTag "") then
    let s := GoStrings.Split jsonTag "," in
    if String.eqb (part s 0) "-" then ""
    else if negb (String.eqb (part s 0) "") then part s 0
    else reflect.FieldName field
  else reflect.FieldName field.

Definition hasNamedJSONTag (field : reflect.StructField) : bool :=
  let parts := GoStrings.Split (jsonTagOf field) "," in
  if length parts =? 0 then false
  else if existsb (fun s => String.eqb s "inline") (List.tl parts) then false
  else 0 <? String.length (part parts 0).

(** The test of [buildProperty] for a [json:"name,string"] annotation. *)
Definition isStringAnnotated (field : reflect.StructField) : bool :=
  let jsonTag := jsonTagOf field in
  if negb (String.eqb jsonTag "") then
    let s := GoStrings.Split jsonTag "," in
    (1 <? length s) && String.eqb (part s 1) "string"
  else false.

Definition keyFrom (st : reflect.rtype) : string :=
  let key := reflect.TypeString st in
  if String.length (reflect.TypeName st) =? 0
  then GoStrings.Replace key "[]" "||"
  else key.

(* ===================================================================== *)
(** * The builder *)
(* ===================================================================== *)

(** What the field functions hand back: the registry, the model under
    construction (they hold a pointer to it), and the pair
    [(jsonName, prop)] they return. *)
Definition PropertyResult : Type := Models * Model * (string * ModelProperty).

Section Builder.

(** The type declarations of the program under synthesis. *)
Variable decls : string -> string -> option reflect.rtype.

(** [t.Implements(marshalerType)]: the type has a [MarshalJSON] method. *)
Variable implementsMarshaler : reflect.rtype -> bool.

Definition kindIs (t : reflect.rtype) (k : reflect.Kind) : bool :=
  reflect.Kind_eqb (reflect.TypeKind decls t) k.

Definition elemOf (t : reflect.rtype) : result reflect.rtype :=
  orPanic (reflect.TypeElem decls t).

Definition getElementTypeName (modelName jsonName : string) (t : reflect.rtype)
  : string :=
  if kindIs t reflect.Ptr then GoStrings.tail1 (reflect.TypeString t)
  else if String.eqb (reflect.TypeName t) "" then modelName +:+ "." +:+ jsonName
  else if isPrimitiveType (reflect.TypeName t) then jsonSchemaType (reflect.TypeName t)
  else keyFrom t.

Section Body.

(** The recursive calls [b.addModel(st, nameOverride)] of the field
    functions, on the registry they are given. *)
Variable addModel_rec :
  Models -> reflect.rtype -> string -> result (Models * option Model).

(** One round of the loop over [subModel.Properties] in the embedded case
    of [buildStructTypeProperty]. *)
Definition mergeProperty (sub : Models) (subModel : Model)
    (st : Models * Model) (kv : string * ModelProperty) : Models * Model :=
  let '(b, model) := st in
  let '(k, v) := kv in
  let model := putProperty k v model in
  let required := existsb (fun each => String.eqb k each) (Required subModel) in
  let model := if required then appendRequired k model else model in
  let b :=
    match Ref v with
    | Some r => <[r := default zeroModel (sub !! r)]> b
    | None => b
    end in
  (b, model).

(** Go leaves the order of a [range] over a map open; the embedding goes by
    [map_to_list].  The order shows only in the order of the names appended
    to [Required]. *)
Definition buildStructTypeProperty (b : Models) (field : reflect.StructField)
    (jsonName : string) (model : Model) : result PropertyResult :=
  let fieldType := reflect.FieldType field in
  if String.length (reflect.TypeName fieldType) =? 0 then
    let anonType := Id model +:+ "." +:+ jsonName in
    '(b, _) ← addModel_rec b fieldType anonType;
    Ok (b, model, (jsonName, setRef anonType zeroProperty))
  else if String.eqb (reflect.FieldName field) (reflect.TypeName fieldType)
          && reflect.FieldAnonymous field
          && negb (hasNamedJSONTag field) then
    '(sub, _) ← addModel_rec ∅ fieldType "";
    let subKey := keyFrom fieldType in
    let subModel := default zeroModel (sub !! subKey) in
    let '(b, model) :=
      foldl (mergeProperty sub subModel) (b, model)
            (map_to_list (Properties subModel)) in
    Ok (b, model, ("", zeroProperty))
  else
    '(b, _) ← addModel_rec b fieldType "";
    Ok (b, model, (jsonName, setRef (reflect.TypeString fieldType) zeroProperty)).

Definition buildArrayTypeProperty (b : Models) (field : reflect.StructField)
    (jsonName modelName : string) (model : Model) : result PropertyResult :=
  let fieldType := reflect.FieldType field in
  elem ← elemOf fieldType;
  let elemTypeName := getElementTypeName modelName jsonName elem in
  let items :=
    if isPrimitiveType elemTypeName
    then mkItem (Some (jsonSchemaType elemTypeName)) None
    else mkItem None (Some elemTypeName) in
  let fieldType := if kindIs elem reflect.Ptr then elem else fieldType in
  elem' ← elemOf fieldType;
  '(b, _) ← addModel_rec b elem' elemTypeName;
  Ok (b, model, (jsonName, setItems items (setType "array" zeroProperty))).

Definition buildPointerTypeProperty (b : Models) (field : reflect.StructField)
    (jsonName modelName : string) (model : Model) : result PropertyResult :=
  let fieldType := reflect.FieldType field in
  pointee ← elemOf fieldType;
  if kindIs pointee reflect.Slice || kindIs pointee reflect.Array then
    elem ← elemOf pointee;
    let elemName := getElementTypeName modelName jsonName elem in
    '(b, _) ← addModel_rec b elem elemName;
    Ok (b, model,
        (jsonName, setItems (mkItem None (Some elemName)) (setType "array" zeroProperty)))
  else
    let pType := GoStrings.tail1 (reflect.TypeString fieldType) in
    if String.eqb (reflect.TypeName pointee) "" then
      let elemName := modelName +:+ "." +:+ jsonName in
      '(b, _) ← addModel_rec b pointee elemName;
      Ok (b, model, (jsonName, setRef elemName zeroProperty))
    else
      '(b, _) ← addModel_rec b pointee "";
      Ok (b, model, (jsonName, setRef pType zeroProperty)).

Definition buildProperty (b : Models) (field : reflect.StructField)
    (model : Model) (modelName : string) : result PropertyResult :=
  let jsonName := jsonNameOfField field in
  if String.length jsonName =? 0 then Ok (b, model, ("", zeroProperty))
  else
    let fieldType := reflect.FieldType field in
    if implementsMarshaler fieldType then
      Ok (b, model,
          (jsonName,
           setFormat (jsonSchemaFormat (reflect.TypeString fieldType))
                     (setType "string" zeroProperty)))
    else if isStringAnnotated field then
      Ok (b, model, (jsonName, setType "string" zeroProperty))
    else if kindIs fieldType reflect.Struct then
      buildStructTypeProperty b field jsonName model
    else if kindIs fieldType reflect.Slice || kindIs fieldType reflect.Array then
      buildArrayTypeProperty b field jsonName modelName model
    else if kindIs fieldType reflect.Ptr then
      buildPointerTypeProperty b field jsonName modelName model
    else if kindIs fieldType reflect.String then
      Ok (b, model, (jsonName, setType "string" zeroProperty))
    else if kindIs fieldType reflect.Map then
      Ok (b, model, (jsonName, setType "any" zeroProperty))
    else if isPrimitiveType (reflect.TypeString fieldType) then
      Ok (b, model,
          (jsonName,
           setFormat (jsonSchemaFormat (reflect.TypeString fieldType))
                     (setType (jsonSchemaType (reflect.TypeString fieldType))
                              zeroProperty)))
    else if String.eqb (reflect.TypeName fieldType) "" then
      let nestedTypeName := modelName +:+ "." +:+ jsonName in
      '(b, _) ← addModel_rec b fieldType nestedTypeName;
      Ok (b, model, (jsonName, setRef nestedTypeName zeroProperty))
    else
      Ok (b, model, (jsonName, setRef (reflect.TypeString fieldType) zeroProperty)).

(** The body of the loop of [addModel] over the fields of a struct. *)
Definition addModel_field (modelName : string) (st : Models * Model)
    (field : reflect.StructField) : result (Models * Model) :=
  let '(b, sm) := st in
  '(b, sm, (jsonName, prop)) ← buildProperty b field sm modelName;
  let descTag := reflect.Get (reflect.FieldTag field) "description" in
  let prop :=
    if negb (String.eqb descTag "") then setDescription descTag prop else prop in
  if negb (String.length jsonName =? 0) then
    let sm := if isPropertyRequired field then appendRequired jsonName sm else sm in
    Ok (b, putProperty jsonName prop sm)
  else Ok (b, sm).

(** The model name [addModel] works under. *)
Definition modelNameOf (st : reflect.rtype) (nameOverride : string) : string :=
  if negb (String.eqb nameOverride "") then nameOverride else keyFrom st.

(** One call of [addModel].  In Go the placeholder [b.Models[modelName]]
    and the local [sm] share one [Properties] map, so the placeholder fills
    up while the fields are visited; here it stays empty until the finished
    [sm] is stored.  The difference cannot be seen: of an entry under
    construction the code only asks whether it is present, and every call
    stores its finished Model before it returns. *)
Definition addModel_body (b : Models) (st : reflect.rtype) (nameOverride : string)
  : result (Models * option Model) :=
  let modelName := modelNameOf st nameOverride in
  if isPrimitiveType modelName then Ok (b, None)
  else
    match b !! modelName with
    | Some _ => Ok (b, None)
    | None =>
        let sm := mkModel modelName [] ∅ in
        let b := <[modelName := sm]> b in
        if kindIs st reflect.Slice || kindIs st reflect.Array then
          elem ← elemOf st;
          '(b, _) ← addModel_rec b elem "";
          Ok (b, Some sm)
        else if negb (kindIs st reflect.Struct) then Ok (b, Some sm)
        else
          fields ← orPanic (reflect.TypeFields decls st);
          '(b, sm) ← foldResult (addModel_field modelName) (b, sm) fields;
          Ok (<[modelName := sm]> b, Some sm)
    end.

End Body.

(** [addModel]: the recursion of the Go code, cut off after [fuel] nested
    calls. *)
Fixpoint addModel (fuel : nat) (b : Models) (st : reflect.rtype)
    (nameOverride : string) : result (Models * option Model) :=
  match fuel with
  | O => Err OutOfFuel
  | S fuel' => addModel_body (addModel fuel') b st nameOverride
  end.

(** A sample value handed to [addModelFrom]: its dynamic type and, when the
    type satisfies [ModelBuildable], its [PostBuildModel] method, which
    returns a [*Model] ([None] for nil).  The method is taken as a function
    of the Model it is given. *)
Record Sample : Type := mkSample {
  SampleType : reflect.rtype;
  PostBuildModel : option (Model -> option Model)
}.

(** [addModelFrom] returns the registry and the models [PostBuildModel] was
    called with during the call, in order. *)
Definition addModelFrom (fuel : nat) (b : Models) (sample : Sample)
  : result (Models * list Model) :=
  '(b, modelOrNil) ← addModel fuel b (SampleType sample) "";
  match modelOrNil with
  | Some m =>
      match PostBuildModel sample with
      | Some hook =>
          m' ← orPanic (hook m);
          Ok (<[Id m' := m']> b, [m])
      | None => Ok (b, [])
      end
  | None => Ok (b, [])
  end.

End Builder.

(* ===================================================================== *)
(** * The vocabulary of the specification *)
(* ===================================================================== *)

(** ** The shape of a property *)

Definition itemPopulated (it : Item) : bool :=
  match Item_Type it, Item_Ref it with
  | Some _, None | None, Some _ => true
  | _, _ => false
  end.

(** The three ways a property may describe its field. *)
Definition hasScalarType (p : ModelProperty) : bool :=
  match Type_ p with
  | Some t => negb (String.eqb t "array")
  | None => false
  end.

Definition hasRef (p : ModelProperty) : bool :=
  match Ref p with Some _ => true | None => false end.

Definition hasArrayType (p : ModelProperty) : bool :=
  match Type_ p with
  | Some t => String.eqb t "array"
  | None => false
  end.

Definition hasItems (p : ModelProperty) : bool :=
  match Items p with Some _ => true | None => false end.

Definition isArrayOfItems (p : ModelProperty) : bool :=
  hasArrayType p &&
  match Items p with Some it => itemPopulated it | None => false end.

Definition exactlyOne (a b c : bool) : bool :=
  (a && negb b && negb c) || (negb a && b && negb c) || (negb a && negb b && c).

(** The invariant of the data model, sentence by sentence. *)
Definition describedOnce (p : ModelProperty) : bool :=
  exactlyOne (hasScalarType p) (hasRef p) (isArrayOfItems p).
Definition scalarTypeWithRef (p : ModelProperty) : bool :=
  hasScalarType p && hasRef p.
Definition itemsIffArray (p : ModelProperty) : bool :=
  Bool.eqb (hasItems p) (hasArrayType p).

(** The shapes the builder produces, case by case; it implies the three
    sentences above. *)
Definition shapeOk (p : ModelProperty) : bool :=
  match Type_ p, Ref p, Items p with
  | Some t, None, None => negb (String.eqb t "array")
  | None, Some _, None => true
  | Some t, None, Some it => String.eqb t "array" && itemPopulated it
  | _, _, _ => false
  end.

Definition modelOk (m : Model) : Prop :=
  map_Forall (fun _ p => shapeOk p = true) (Properties m).

Definition registryOk (b : Models) : Prop :=
  map_Forall (fun _ m => modelOk m) b.

(** The registry after a call: no name is lost, and well-shaped properties
    stay well-shaped. *)
Definition grows (b b' : Models) : Prop :=
  dom b ⊆ dom b' ∧ (registryOk b → registryOk b').

(** What a field function leaves behind: a grown registry and the model
    under construction with its [Id], well-shaped if it was; and a property
    that is well-shaped unless the field is skipped. *)
Definition keeps (b : Models) (model : Model) (b' : Models) (model' : Model)
  : Prop :=
  grows b b' /\ (modelOk model -> modelOk model') /\ Id model' = Id model.

Definition fieldPost (b : Models) (model : Model) (out : PropertyResult) : Prop :=
  keeps b model out.1.1 out.1.2
  /\ (out.2.1 <> "" -> shapeOk out.2.2 = true).

(** ** Annotations, in the words of the specification *)

(** The name part of a json tag: the text before its first comma. *)
Fixpoint namePart (tag : string) : string :=
  match tag with
  | EmptyString => EmptyString
  | String c tag' =>
      if Ascii.eqb c "," then EmptyString else String c (namePart tag')
  end.

(** The JSON-visible name: the name part, unless it is empty (then the Go
    field name) or a dash (then none). *)
Definition jsonNameSpec (field : reflect.StructField) : string :=
  let name := namePart (jsonTagOf field) in
  if String.eqb name "-" then ""
  else if String.eqb name "" then reflect.FieldName field
  else name.

(** The options of a json tag: its comma-separated parts after the name. *)
Definition tagOptions (tag : string) : list string :=
  List.tl (GoStrings.Split tag ",").

Definition hasOmitempty (field : reflect.StructField) : bool :=
  existsb (String.eqb "omitempty") (tagOptions (jsonTagOf field)).

(** The names of the primitive allow-list, one by one. *)
Definition allowList : list string :=
  [ "uint8"; "uint16"; "uint32"; "uint64"; "int"; "int8"; "int16"; "int32";
    "int64"; "float32"; "float64"; "bool"; "string"; "byte"; "rune";
    "time.Time" ].

Definition onAllowList (name : string) : bool :=
  existsb (String.eqb name) allowList.

(** ** Fields that [buildProperty] settles without a call of [addModel] *)


(** A field that ends as a reference to the model [target]: it is not
    skipped, does not marshal itself and is not string-coerced. *)
Definition isPlainField (implementsMarshaler : reflect.rtype -> bool)
    (field : reflect.StructField) : bool :=
  negb (String.length (jsonNameOfField field) =? 0)
  && negb (implementsMarshaler (reflect.FieldType field))
  && negb (isStringAnnotated field).

(** ** Embedded structs that are flattened *)

(** The test of [buildStructTypeProperty] for the embedded case, with the
    test of [buildProperty] that leads there. *)
Definition isFlattened (decls : string -> string -> option reflect.rtype)
    (field : reflect.StructField) : bool :=
  kindIs decls (reflect.FieldType field) reflect.Struct
  && negb (String.eqb (reflect.TypeName (reflect.FieldType field)) "")
  && String.eqb (reflect.FieldName field) (reflect.TypeName (reflect.FieldType field))
  && reflect.FieldAnonymous field
  && negb (hasNamedJSONTag field).

(** ** Structs that hold a pointer to a declared struct *)

(** The model [m] has, under the name [k], a reference to the model
    [target] and nothing else. *)
Definition refersTo (m : Model) (k target : string) : Prop :=
  exists p, Properties m !! k = Some p
            /\ Ref p = Some target /\ Type_ p = None /\ Items p = None.



(* ===================================================================== *)
(** * Sample programs *)
(* ===================================================================== *)

(** Type declarations given as a list. *)
Definition Program : Type := list (string * string * reflect.rtype).

Definition declsOf (prog : Program) (pkg name : string) : option reflect.rtype :=
  match
    List.find
      (fun d => String.eqb (fst (fst d)) pkg && String.eqb (snd (fst d)) name)
      prog
  with
  | Some d => Some (snd d)
  | None => None
  end.

Definition noMarshaler (t : reflect.rtype) : bool := false.

(** An exported field without tags, and one with a json tag. *)
Definition plain (name : string) (t : reflect.rtype) : reflect.StructField :=
  reflect.mkField name t [] false.
Definition tagged (name : string) (t : reflect.rtype) (json : string)
  : reflect.StructField :=
  reflect.mkField name t [("json", json)] false.
Definition embedded (name : string) (t : reflect.rtype) : reflect.StructField :=
  reflect.mkField name t [] true.

Definition tInt : reflect.rtype := reflect.Basic reflect.Int.
Definition tUint8 : reflect.rtype := reflect.Basic reflect.Uint8.
Definition tString : reflect.rtype := reflect.Basic reflect.String.
Definition named (name : string) : reflect.rtype := reflect.Defined "main" name.

(**
<<
  package main
  type Node  struct { Next *Node; Label string }
  type Ping  struct { Peer *Pong }
  type Pong  struct { Peer *Ping `json:"peer,omitempty"` }
  type Blob  struct { Data []uint8 }
  type T     struct { X int }
  type Batch struct { Items []T }
  type Names struct { Direct []string; Indirect *[]string }
  type Count struct { N int `json:"n,string,omitempty"`; M int `json:"m,omitempty"` }
  type Inner struct { A int }
  type Outer struct { Inner }
  type Leaf  struct { V string }
  type Link  struct { To *Leaf }
  type Wrap  struct { Link; Hidden int `json:"-"`; Note string `json:",omitempty"` }
  type Loop  struct { Knot }
  type Knot  struct { Back *Loop }
>>
*)
Definition sampleProgram : Program :=
  [ ("main", "Node",
     reflect.StructOf "" [plain "Next" (reflect.PtrTo (named "Node"));
                          plain "Label" tString]);
    ("main", "Ping",
     reflect.StructOf "" [plain "Peer" (reflect.PtrTo (named "Pong"))]);
    ("main", "Pong",
     reflect.StructOf "" [tagged "Peer" (reflect.PtrTo (named "Ping")) "peer,omitempty"]);
    ("main", "Blob",
     reflect.StructOf "" [plain "Data" (reflect.SliceOf tUint8)]);
    ("main", "T", reflect.StructOf "" [plain "X" tInt]);
    ("main", "Batch",
     reflect.StructOf "" [plain "Items" (reflect.SliceOf (named "T"))]);
    ("main", "Names",
     reflect.StructOf "" [plain "Direct" (reflect.SliceOf tString);
                          plain "Indirect" (reflect.PtrTo (reflect.SliceOf tString))]);
    ("main", "Count",
     reflect.StructOf "" [tagged "N" tInt "n,string,omitempty";
                          tagged "M" tInt "m,omitempty"]);
    ("main", "Inner", reflect.StructOf "" [plain "A" tInt]);
    ("main", "Outer", reflect.StructOf "" [embedded "Inner" (named "Inner")]);
    ("main", "Leaf", reflect.StructOf "" [plain "V" tString]);
    ("main", "Link",
     reflect.StructOf "" [plain "To" (reflect.PtrTo (named "Leaf"))]);
    ("main", "Wrap",
     reflect.StructOf "" [embedded "Link" (named "Link");
                          tagged "Hidden" tInt "-";
                          tagged "Note" tString ",omitempty"]);
    ("main", "Loop", reflect.StructOf "" [embedded "Knot" (named "Knot")]);
    ("main", "Knot",
     reflect.StructOf "" [plain "Back" (reflect.PtrTo (named "Loop"))]) ].

Definition sampleDecls : string -> string -> option reflect.rtype :=
  declsOf sampleProgram.

(** The builder on the sample program. *)
Definition synthesize (fuel : nat) (b : Models) (st : reflect.rtype)
  : result (Models * option Model) :=
  addModel sampleDecls noMarshaler fuel b st "".

(** A [PostBuildModel] that adds a property and keeps the [Id]. *)
Definition annotate (m : Model) : option Model :=
  Some (putProperty "extra" (setType "string" zeroProperty) m).

Definition buildableT : Sample := mkSample (named "T") (Some annotate).

(** ** The registries the sample programs yield *)

Definition scalarOf (type format : string) : ModelProperty :=
  mkModelProperty (Some type) format None None "".
Definition refTo (name : string) : ModelProperty :=
  mkModelProperty None "" (Some name) None "".
Definition arrayOfType (type : string) : ModelProperty :=
  mkModelProperty (Some "array") "" None (Some (mkItem (Some type) None)) "".
Definition arrayOfRef (name : string) : ModelProperty :=
  mkModelProperty (Some "array") "" None (Some (mkItem None (Some name))) "".

Definition modelT : Model :=
  mkModel "main.T" ["X"] {[ "X" := scalarOf "integer" "int32" ]}.

Definition modelBlob : Model :=
  mkModel "main.Blob" ["Data"] {[ "Data" := arrayOfRef "integer" ]}.
Definition registryBlob : Models :=
  {[ "main.Blob" := modelBlob; "integer" := mkModel "integer" [] ∅ ]}.

Definition modelBatch : Model :=
  mkModel "main.Batch" ["Items"] {[ "Items" := arrayOfType "T" ]}.

Definition modelNames : Model :=
  mkModel "main.Names" ["Direct"; "Indirect"]
    {[ "Direct" := arrayOfType "string"; "Indirect" := arrayOfRef "string" ]}.

Definition modelCount : Model :=
  mkModel "main.Count" ["n"]
    {[ "n" := scalarOf "string" ""; "m" := scalarOf "integer" "int32" ]}.

Definition modelOuter : Model :=
  mkModel "main.Outer" ["A"] {[ "A" := scalarOf "integer" "int32" ]}.

Definition modelLeaf : Model :=
  mkModel "main.Leaf" ["V"] {[ "V" := scalarOf "string" "" ]}.
Definition modelWrap : Model :=
  mkModel "main.Wrap" ["To"]
    {[ "To" := refTo "main.Leaf"; "Note" := scalarOf "string" "" ]}.

Definition modelNode : Model :=
  mkModel "main.Node" ["Next"; "Label"]
    {[ "Next" := refTo "main.Node"; "Label" := scalarOf "string" "" ]}.
Definition modelPing : Model :=
  mkModel "main.Ping" ["Peer"] {[ "Peer" := refTo "main.Pong" ]}.
Definition modelPong : Model :=
  mkModel "main.Pong" [] {[ "peer" := refTo "main.Ping" ]}.

Definition modelAnnotatedT : Model :=
  mkModel "main.T" ["X"]
    {[ "X" := scalarOf "integer" "int32"; "extra" := scalarOf "string" "" ]}.

Definition modelLink : Model :=
  mkModel "main.Link" ["To"] {[ "To" := refTo "main.Leaf" ]}.

(** ** What a struct without flattened fields yields *)

(** The field gets an entry in [Properties]: its JSON name is not empty. *)
Definition isStored (field : reflect.StructField) : bool :=
  negb (String.eqb (jsonNameOfField field) "").

(** The names the loop of [addModel] appends to [Required], in the order
    of the fields, and the names it stores properties under. *)
Definition requiredNames (fields : list reflect.StructField) : list string :=
  map jsonNameOfField
    (List.filter (fun f => isStored f && isPropertyRequired f) fields).

Definition propertyNames (fields : list reflect.StructField) : gset string :=
  list_to_set (map jsonNameOfField (List.filter isStored fields)).


(** The field whose property ends under the name [k]: the last stored field
    with that JSON name. *)
Definition fieldStoredAs (k : string) (fields : list reflect.StructField)
  : option reflect.StructField :=
  List.find (fun f => isStored f && String.eqb (jsonNameOfField f) k) (rev fields).

Definition descriptionOf (field : reflect.StructField) : string :=
  reflect.Get (reflect.FieldTag field) "description".

(**
<<
  package main
  type Celsius float64
  type Tag     struct { Key string }
  type Reading struct {
      ID    string  `json:"id"`
      Temp  Celsius `json:"temp,omitempty" description:"degrees"`
      Raw   []uint8 `json:"-"`
      Note  string  `json:"id" description:"free text"`
      Site  struct { Name string } `json:"site"`
      Tags  []Tag
      Ptrs  []*Tag  `json:",omitempty"`
  }
>>
*)
Definition readingFields : list reflect.StructField :=
  [ tagged "ID" tString "id";
    reflect.mkField "Temp" (named "Celsius")
      [("json", "temp,omitempty"); ("description", "degrees")] false;
    tagged "Raw" (reflect.SliceOf tUint8) "-";
    reflect.mkField "Note" tString
      [("json", "id"); ("description", "free text")] false;
    tagged "Site"
      (reflect.StructOf "struct { Name string }" [plain "Name" tString]) "site";
    plain "Tags" (reflect.SliceOf (named "Tag"));
    tagged "Ptrs" (reflect.SliceOf (reflect.PtrTo (named "Tag"))) ",omitempty" ].

Definition readingProgram : Program :=
  [ ("main", "Celsius", reflect.Basic reflect.Float64);
    ("main", "Tag", reflect.StructOf "" [plain "Key" tString]);
    ("main", "Reading", reflect.StructOf "" readingFields) ].

Definition readingDecls : string -> string -> option reflect.rtype :=
  declsOf readingProgram.

Definition modelTag : Model :=
  mkModel "main.Tag" ["Key"] {[ "Key" := scalarOf "string" "" ]}.
Definition modelSite : Model :=
  mkModel "main.Reading.site" ["Name"] {[ "Name" := scalarOf "string" "" ]}.
Definition modelReading : Model :=
  mkModel "main.Reading" ["id"; "id"; "site"; "Tags"]
    {[ "id" := mkModelProperty (Some "string") "" None None "free text";
       "temp" := mkModelProperty None "" (Some "main.Celsius") None "degrees";
       "site" := refTo "main.Reading.site";
       "Tags" := arrayOfRef "main.Tag";
       "Ptrs" := arrayOfRef "main.Tag" ]}.
Definition registryReading : Models :=
  {[ "main.Reading" := modelReading; "main.Reading.site" := modelSite;
     "main.Tag" := modelTag ]}.


(** ** Types that end as a bare reference *)

(** A named type that is no struct, list, pointer, string or map and whose
    text is not classified primitive: a declared number or bool, [uintptr],
    a complex number, a named function or channel type. *)
Definition isNamedScalar (decls : string -> string -> option reflect.rtype)
    (t : reflect.rtype) : bool :=
  negb (kindIs decls t reflect.Struct)
  && negb (kindIs decls t reflect.Slice)
  && negb (kindIs decls t reflect.Array)
  && negb (kindIs decls t reflect.Ptr)
  && negb (kindIs decls t reflect.String)
  && negb (kindIs decls t reflect.Map)
  && negb (isPrimitiveType (reflect.TypeString t))
  && negb (String.eqb (reflect.TypeName t) "").


(* ===================================================================== *)
(** * Go values and [reflect.Value] *)
(* ===================================================================== *)

(** The values [Validate] of [request.go] walks, as far as it looks at
    them: booleans, integers and strings; [VNil] for a nil pointer, slice,
    map, function, channel or interface; [VRef] for a map, function or
    channel that is not nil; an interface that is not nil holds a value
    together with its dynamic type.  Floating-point and complex numbers are
    left out.  Values are trees: a slice that reaches itself through its own
    elements is not among them. *)
#[warnings="-register-all"]
Inductive Value : Type :=
  | VBool (b : bool)
  | VInt (n : Z)
  | VString (s : string)
  | VNil
  | VRef
  | VPtr (target : Value)
  | VSlice (elems : list Value)
  | VArray (elems : list Value)
  | VStruct (fields : list Value)
  | VIface (dyn : reflect.rtype) (v : Value).

(** A Go [interface{}]: nil, or a dynamic type with a value of it. *)
Definition Iface : Type := option (reflect.rtype * Value).

(** [reflect.DeepEqual(reflect.Zero(t).Interface(), v.Interface())] for a
    value [v] of type [t].  Both sides have the type [t], so [DeepEqual]
    compares them part by part: a nil pointer, slice, map, function or
    interface equals only nil (an empty slice that is not nil differs from
    the nil slice), structs and arrays are compared field by field. *)
Fixpoint isZeroValue (v : Value) : bool :=
  match v with
  | VBool b => negb b
  | VInt n => Z.eqb n 0
  | VString s => String.eqb s ""
  | VNil => true
  | VRef => false
  | VPtr _ => false
  | VSlice _ => false
  | VArray elems => forallb isZeroValue elems
  | VStruct fields => forallb isZeroValue fields
  | VIface _ _ => false
  end.

(** How deep the values nest. *)
Fixpoint depth (v : Value) : nat :=
  match v with
  | VPtr target => S (depth target)
  | VSlice elems => S (max_list (List.map depth elems))
  | VArray elems => S (max_list (List.map depth elems))
  | VStruct fields => S (max_list (List.map depth fields))
  | VIface _ x => S (depth x)
  | _ => 0
  end.

(** A field is exported when its name starts with an upper-case letter
    (names are ASCII here). *)
Definition isExported (name : string) : bool :=
  match name with
  | String c _ => (65 <=? nat_of_ascii c) && (nat_of_ascii c <=? 90)
  | EmptyString => false
  end.

(** [Value.Elem()] of a pointer: the zero Value ([None]) for a nil pointer. *)
Definition ValueElem (v : Value) : option Value :=
  match v with
  | VPtr target => Some target
  | _ => None
  end.

(** [Value.Field(i)]; it panics on the zero Value and on a Value that has
    no field [i]. *)
Definition ValueField (val : option Value) (i : nat) : result Value :=
  match val with
  | Some (VStruct fields) => orPanic (fields !! i)
  | _ => Err Panicked
  end.

(** The elements [Index(0) .. Index(Len()-1)] of a slice; [Len] panics on
    the zero Value. *)
Definition ValueElems (val : option Value) : result (list Value) :=
  match val with
  | Some (VSlice elems) => Ok elems
  | Some VNil => Ok []
  | _ => Err Panicked
  end.

(** Go's [error] values that occur in [request.go]: the result of
    [errors.New], the [ServiceError] that [NewError] returns, and the errors
    of the decoders and of the body reader, known by their text only. *)
Inductive GoError : Type :=
  | errorsNew (text : string)
  | NewError (httpStatus : nat) (message : string)
  | libraryError (text : string).

(* ===================================================================== *)
(** * [Validate] *)
(* ===================================================================== *)

(** A loop whose body returns an error or goes on. *)
Fixpoint firstError {A : Type} (body : A -> result (option GoError)) (l : list A)
  : result (option GoError) :=
  match l with
  | [] => Ok None
  | x :: l' =>
      err ← body x;
      match err with
      | Some e => Ok (Some e)
      | None => firstError body l'
      end
  end.

Section Validation.

Variable decls : string -> string -> option reflect.rtype.

(** [v.Interface()] for a Value [v] of static type [t]: of an interface it
    is the value inside (nil for a nil interface). *)
Definition ValueInterface (t : reflect.rtype) (v : Value) : Iface :=
  if kindIs decls t reflect.Interface then
    match v with
    | VIface dyn x => Some (dyn, x)
    | _ => None
    end
  else Some (t, v).

Section Body.

Variable Validate_rec : Iface -> list string -> result (option GoError).

(** The body of the loop over the fields of a struct: [Some] error where
    the code returns, [None] where it goes on to the next field. *)
Definition Validate_field (val : option Value) (parents : list string) (i : nat)
    (field : reflect.StructField) : result (option GoError) :=
  let tag := reflect.FieldTag field in
  if String.eqb (reflect.Get tag "form") "-" then Ok None
  else
    fv ← ValueField val i;
    fieldValue ← (if isExported (reflect.FieldName field)
                  then Ok (ValueInterface (reflect.FieldType field) fv)
                  else Err Panicked);
    let isZero := isZeroValue fv in
    if GoStrings.Contains (reflect.Get tag "binding") "required" then
      if kindIs decls (reflect.FieldType field) reflect.Struct then
        if isZero then Ok (Some (errorsNew ("Required " +:+ reflect.Get tag "json")))
        else Validate_rec fieldValue [reflect.FieldName field]
      else if isZero then
        match parents with
        | parent :: _ =>
            Ok (Some (errorsNew ("Required " +:+ reflect.Get tag "json"
                                  +:+ " on " +:+ parent)))
        | [] => Ok (Some (errorsNew ("Required " +:+ reflect.Get tag "json")))
        end
      else if kindIs decls (reflect.FieldType field) reflect.Slice then
        elem ← elemOf decls (reflect.FieldType field);
        if kindIs decls elem reflect.Struct then Validate_rec fieldValue []
        else Ok None
      else Ok None
    else Ok None.

(** [for i := 0; i < typ.NumField(); i++], from index [i] on. *)
Fixpoint Validate_fields (val : option Value) (parents : list string) (i : nat)
    (fields : list reflect.StructField) : result (option GoError) :=
  match fields with
  | [] => Ok None
  | field :: rest =>
      err ← Validate_field val parents i field;
      match err with
      | Some e => Ok (Some e)
      | None => Validate_fields val parents (S i) rest
      end
  end.

(** One call of [Validate].  [reflect.TypeOf(nil)] is nil, and [Kind] of it
    a nil dereference. *)
Definition Validate_body (obj : Iface) (parents : list string)
  : result (option GoError) :=
  '(typ, val) ← orPanic obj;
  '(typ, val) ← (if kindIs decls typ reflect.Ptr
                  then typ' ← elemOf decls typ; Ok (typ', ValueElem val)
                  else Ok (typ, Some val));
  if kindIs decls typ reflect.Struct then
    fields ← orPanic (reflect.TypeFields decls typ);
    Validate_fields val parents 0 fields
  else if kindIs decls typ reflect.Slice then
    elems ← ValueElems val;
    elem ← elemOf decls typ;
    firstError (fun v => Validate_rec (ValueInterface elem v) []) elems
  else Ok None.

End Body.

(** [Validate]: the recursion of the Go code, cut off after [fuel] nested
    calls. *)
Fixpoint Validate (fuel : nat) (obj : Iface) (parents : list string)
  : result (option GoError) :=
  match fuel with
  | O => Err OutOfFuel
  | S fuel' => Validate_body (Validate fuel') obj parents
  end.

End Validation.

(** ** The vocabulary of validation *)

Definition formTag (field : reflect.StructField) : string :=
  reflect.Get (reflect.FieldTag field) "form".
Definition bindingTag (field : reflect.StructField) : string :=
  reflect.Get (reflect.FieldTag field) "binding".

(** A field [Validate] skips, and a field it takes as required. *)
Definition isIgnored (field : reflect.StructField) : bool :=
  String.eqb (formTag field) "-".
Definition isBound (field : reflect.StructField) : bool :=
  GoStrings.Contains (bindingTag field) "required".

(** A required field [Validate] goes into: a struct, or a slice of
    structs (a slice type has an element type). *)
Definition isDescended (decls : string -> string -> option reflect.rtype)
    (field : reflect.StructField) : bool :=
  kindIs decls (reflect.FieldType field) reflect.Struct
  || (kindIs decls (reflect.FieldType field) reflect.Slice
      && match reflect.TypeElem decls (reflect.FieldType field) with
         | Some elem => kindIs decls elem reflect.Struct
         | None => true
         end).

(** A field that is checked for presence at most: it is skipped, or
    exported and then either not required or required, not gone into. *)
Definition isShallow (decls : string -> string -> option reflect.rtype)
    (field : reflect.StructField) : bool :=
  isIgnored field
  || (isExported (reflect.FieldName field)
      && (negb (isBound field) || negb (isDescended decls field))).

(** A shallow field with its value passes: it would not be reported. *)
Definition isPresent (field : reflect.StructField) (v : Value) : bool :=
  isIgnored field || negb (isBound field) || negb (isZeroValue v).

(** The first field, in the order of declaration, that is required and
    holds the zero value of its type. *)
Definition firstMissing (fields : list reflect.StructField) (vals : list Value)
  : option reflect.StructField :=
  fst <$> List.find (fun fv => negb (isPresent (fst fv) (snd fv)))
                    (List.combine fields vals).

(** The text of the error for a missing field. *)
Definition requiredMessage (field : reflect.StructField) (parents : list string)
  : string :=
  match parents with
  | parent :: _ =>
      "Required " +:+ reflect.Get (reflect.FieldTag field) "json"
      +:+ " on " +:+ parent
  | [] => "Required " +:+ reflect.Get (reflect.FieldTag field) "json"
  end.

(**
<<
  package main
  type Address struct {
      City string `json:"city" binding:"required"`
      Zip  string `json:"zip"`
  }
  type Line struct {
      Sku string `json:"sku" binding:"required"`
  }
  type Contact struct {
      ID     int      `json:"id,omitempty" binding:"required"`
      Note   string   `json:"note"`
      secret string   `form:"-"`
      Owner  *Address `json:"owner" binding:"required"`
      Refs   []*Line  `binding:"required"`
  }
  type Order struct {
      ID     int      `json:"id,omitempty" binding:"required"`
      Note   string   `json:"note"`
      secret string   `form:"-"`
      Owner  *Address `json:"owner" binding:"required"`
      Refs   []*Line  `binding:"required"`
      Ship   Address  `json:"ship" binding:"required"`
      Lines  []Line   `json:"lines" binding:"required"`
  }
  type Session struct {
      User  string `json:"user"`
      token string
  }
>>
*)
Definition bound (name : string) (t : reflect.rtype) (json : string)
  : reflect.StructField :=
  reflect.mkField name t [("json", json); ("binding", "required")] false.

Definition addressFields : list reflect.StructField :=
  [ bound "City" tString "city"; tagged "Zip" tString "zip" ].

Definition lineFields : list reflect.StructField :=
  [ bound "Sku" tString "sku" ].

Definition contactFields : list reflect.StructField :=
  [ bound "ID" tInt "id,omitempty";
    tagged "Note" tString "note";
    reflect.mkField "secret" tString [("form", "-")] false;
    bound "Owner" (reflect.PtrTo (named "Address")) "owner";
    reflect.mkField "Refs" (reflect.SliceOf (reflect.PtrTo (named "Line")))
      [("binding", "required")] false ].

Definition orderFields : list reflect.StructField :=
  contactFields
  ++ [ bound "Ship" (named "Address") "ship";
       bound "Lines" (reflect.SliceOf (named "Line")) "lines" ].

Definition sessionFields : list reflect.StructField :=
  [ tagged "User" tString "user"; plain "token" tString ].

Definition orderProgram : Program :=
  [ ("main", "Address", reflect.StructOf "" addressFields);
    ("main", "Line", reflect.StructOf "" lineFields);
    ("main", "Contact", reflect.StructOf "" contactFields);
    ("main", "Order", reflect.StructOf "" orderFields);
    ("main", "Session", reflect.StructOf "" sessionFields) ].

Definition orderDecls : string -> string -> option reflect.rtype :=
  declsOf orderProgram.

(** A contact whose [Owner] points to an address without a city and whose
    [Refs] hold a line without a stock number. *)
Definition contactValues (id : Z) : list Value :=
  [ VInt id; VString ""; VString "s3cret";
    VPtr (VStruct [VString ""; VString ""]);
    VSlice [VPtr (VStruct [VString ""])] ].

Definition orderValues (id : Z) (ship : Value) (lines : Value) : list Value :=
  contactValues id ++ [ship; lines].

Definition addressValue (city : string) : Value :=
  VStruct [VString city; VString ""].


Definition lineValue (sku : string) : Value := VStruct [VString sku].


(** The entity handed to [Validate]: a struct, or a pointer to one. *)
Definition structOrPointer (typ : reflect.rtype) (vals : list Value) (obj : Iface)
  : Prop :=
  obj = Some (typ, VStruct vals)
  \/ obj = Some (reflect.PtrTo typ, VPtr (VStruct vals)).

(** What [Validate] may come back with: a panic, nil, or an error made by
    [errors.New] whose text starts with [Required]. *)
Definition requiredOnly (r : result (option GoError)) : Prop :=
  r = Err Panicked
  \/ r = Ok None
  \/ exists rest, r = Ok (Some (errorsNew ("Required " +:+ rest))).

Definition depthOf (obj : Iface) : nat :=
  match obj with
  | Some (_, v) => depth v
  | None => 0
  end.


(* ===================================================================== *)
(** * Requests: [request.go] *)
(* ===================================================================== *)

(** The package variables [defaultRequestContentType] and
    [doCacheReadEntityBytes]. *)
Record Settings : Type := mkSettings {
  defaultRequestContentType : string;
  doCacheReadEntityBytes : bool
}.

Definition initialSettings : Settings := mkSettings "" true.

Definition DefaultRequestContentType (mime : string) (g : Settings) : Settings :=
  mkSettings mime (doCacheReadEntityBytes g).

Definition SetCacheReadEntity (doCache : bool) (g : Settings) : Settings :=
  mkSettings (defaultRequestContentType g) doCache.

Section Requests.

(** An [io.Reader] in some state. *)
Variable Reader : Type.

(** [http.Request] as far as [request.go] reads it: [Header.Get] and the
    body. *)
Record httpRequest : Type := mkHttpRequest {
  Header_Get : string -> string;
  Body : Reader
}.

(** A Go [*[]byte] is an [option]; a map read of a missing key gives the
    zero value; an attribute is an [interface{}]. *)
Record Request : Type := mkRequest {
  Request_Request : httpRequest;
  bodyContent : option (list Byte.byte);
  pathParameters : gmap string string;
  attributes : gmap string Iface;
  selectedRoutePath : string
}.

Definition NewRequest (httpRequest : httpRequest) : Request :=
  mkRequest httpRequest None ∅ ∅ "".

Definition PathParameter (r : Request) (name : string) : string :=
  default "" (pathParameters r !! name).

Definition PathParameters (r : Request) : gmap string string := pathParameters r.

Definition HeaderParameter (r : Request) (name : string) : string :=
  Header_Get (Request_Request r) name.

Definition SetAttribute (name : string) (value : Iface) (r : Request) : Request :=
  mkRequest (Request_Request r) (bodyContent r) (pathParameters r)
    (<[name := value]> (attributes r)) (selectedRoutePath r).

Definition Attribute (r : Request) (name : string) : Iface :=
  default None (attributes r !! name).

Definition SelectedRoutePath (r : Request) : string := selectedRoutePath r.

Definition setBody (body : Reader) (r : Request) : Request :=
  mkRequest (mkHttpRequest (Header_Get (Request_Request r)) body)
    (bodyContent r) (pathParameters r) (attributes r) (selectedRoutePath r).

Definition setBodyContent (buffer : list Byte.byte) (r : Request) : Request :=
  mkRequest (Request_Request r) (Some buffer) (pathParameters r) (attributes r)
    (selectedRoutePath r).

(** The constants [MIME_XML], [MIME_JSON] and [HEADER_ContentType] are
    declared in another file of the package. *)
Variables MIME_XML MIME_JSON HEADER_ContentType : string.

(** [ioutil.ReadAll(reader)]: the bytes read, the error (nil at the end of
    the stream) and the reader afterwards; [bytes.NewReader(buffer)]. *)
Variable ReadAll : Reader -> list Byte.byte * option GoError * Reader.
Variable NewReader : list Byte.byte -> Reader.

(** [xml.NewDecoder(reader).Decode(entityPointer)], and the same of
    [encoding/json] after [UseNumber()]: the entity with what is stored
    behind the pointer, the error and the reader afterwards. *)
Variables xmlDecode jsonDecode : Reader -> Iface -> Iface * option GoError * Reader.

Variable decls : string -> string -> option reflect.rtype.

(** Decode, and validate what was decoded when there was no error. *)
Definition decodeWith (decode : Reader -> Iface -> Iface * option GoError * Reader)
    (fuel : nat) (reader : Reader) (entityPointer : Iface)
  : result (Reader * Iface * option GoError) :=
  let '(entity, err, reader) := decode reader entityPointer in
  match err with
  | Some e => Ok (reader, entity, Some e)
  | None =>
      err ← Validate decls fuel entity [];
      Ok (reader, entity, err)
  end.

(** [decodeEntity] returns the reader and the entity as they are afterwards,
    and the error. *)
Definition decodeEntity (g : Settings) (fuel : nat) (reader : Reader)
    (contentType : string) (entityPointer : Iface)
  : result (Reader * Iface * option GoError) :=
  if GoStrings.Contains contentType MIME_XML then
    decodeWith xmlDecode fuel reader entityPointer
  else if GoStrings.Contains contentType MIME_JSON
          || String.eqb MIME_JSON (defaultRequestContentType g) then
    decodeWith jsonDecode fuel reader entityPointer
  else if String.eqb MIME_XML (defaultRequestContentType g) then
    decodeWith xmlDecode fuel reader entityPointer
  else
    Ok (reader, entityPointer,
        Some (NewError 400 ("Unable to unmarshal content of type:" +:+ contentType))).

Definition cachingReadEntity (g : Settings) (fuel : nat) (r : Request)
    (contentType : string) (entityPointer : Iface)
  : result (Request * Iface * option GoError) :=
  match bodyContent r with
  | Some buffer =>
      '(_, entity, err) ← decodeEntity g fuel (NewReader buffer) contentType
                            entityPointer;
      Ok (r, entity, err)
  | None =>
      let '(buffer, err, body) := ReadAll (Body (Request_Request r)) in
      let r := setBody body r in
      match err with
      | Some e => Ok (r, entityPointer, Some e)
      | None =>
          let r := setBodyContent buffer r in
          '(_, entity, err) ← decodeEntity g fuel (NewReader buffer) contentType
                                entityPointer;
          Ok (r, entity, err)
      end
  end.

Definition ReadEntity (g : Settings) (fuel : nat) (r : Request)
    (entityPointer : Iface) : result (Request * Iface * option GoError) :=
  let contentType := Header_Get (Request_Request r) HEADER_ContentType in
  if doCacheReadEntityBytes g then
    cachingReadEntity g fuel r contentType entityPointer
  else
    '(body, entity, err) ← decodeEntity g fuel (Body (Request_Request r))
                              contentType entityPointer;
    Ok (setBody body r, entity, err).

End Requests.

Arguments mkHttpRequest {Reader} _ _.
Arguments Header_Get {Reader} _ _.
Arguments Body {Reader} _.
Arguments mkRequest {Reader} _ _ _ _ _.
Arguments Request_Request {Reader} _.
Arguments bodyContent {Reader} _.
Arguments pathParameters {Reader} _.
Arguments attributes {Reader} _.
Arguments selectedRoutePath {Reader} _.
Arguments NewRequest {Reader} _.
Arguments PathParameter {Reader} _ _.
Arguments PathParameters {Reader} _.
Arguments HeaderParameter {Reader} _ _.
Arguments SetAttribute {Reader} _ _ _.
Arguments Attribute {Reader} _ _.
Arguments SelectedRoutePath {Reader} _.
Arguments setBody {Reader} _ _.
Arguments setBodyContent {Reader} _ _.
Arguments decodeWith {Reader} _ _ _ _ _.
Arguments decodeEntity {Reader} _ _ _ _ _ _ _ _ _ _.
Arguments cachingReadEntity {Reader} _ _ _ _ _ _ _ _ _ _ _ _.
Arguments ReadEntity {Reader} _ _ _ _ _ _ _ _ _ _ _ _.

(** The attributes set one after the other on a fresh request, and the
    value last set under a name. *)
Definition setAttributes {Reader : Type} (sets : list (string * Iface))
    (r : Request Reader) : Request Reader :=
  foldl (fun r nv => SetAttribute (fst nv) (snd nv) r) r sets.

Definition lastSet (sets : list (string * Iface)) (name : string) : Iface :=
  match List.find (fun nv => String.eqb (fst nv) name) (rev sets) with
  | Some nv => snd nv
  | None => None
  end.

(** ** A sample service

    A reader is the list of bytes it still holds; the JSON decoder at hand
    reads all of it and stores a [Line] whose [Sku] says whether it found a
    byte; the XML decoder always fails. *)
Definition sampleReadAll (reader : list Byte.byte)
  : list Byte.byte * option GoError * list Byte.byte :=
  (reader, None, []).

Definition sampleNewReader (buffer : list Byte.byte) : list Byte.byte := buffer.

Definition sampleJsonDecode (reader : list Byte.byte) (entityPointer : Iface)
  : Iface * option GoError * list Byte.byte :=
  match entityPointer with
  | Some (t, VPtr _) =>
      (Some (t, VPtr (VStruct [VString (if reader is [] then "" else "A-1")])),
       None, [])
  | _ => (entityPointer, Some (libraryError "json: Unmarshal(nil)"), reader)
  end.

Definition sampleXmlDecode (reader : list Byte.byte) (entityPointer : Iface)
  : Iface * option GoError * list Byte.byte :=
  (entityPointer, Some (libraryError "EOF"), reader).

Definition sampleHeader (name : string) : string :=
  if String.eqb name "Content-Type" then "application/json; charset=utf-8" else "".

Definition sampleRequest : Request (list Byte.byte) :=
  NewRequest (mkHttpRequest sampleHeader [Byte.x7b; Byte.x7d]).

Definition sampleRead (fuel : nat) (r : Request (list Byte.byte)) (entity : Iface)
  : result (Request (list Byte.byte) * Iface * option GoError) :=
  ReadEntity "application/xml" "application/json" "Content-Type"
    sampleReadAll sampleNewReader sampleXmlDecode sampleJsonDecode orderDecls
    initialSettings fuel r entity.


(** ** Embedded structs whose properties are merged *)

(** The field reaches the embedded case of [buildStructTypeProperty]: it
    passes the tests of [buildProperty] before the switch on the kind (it is
    not skipped, does not marshal itself and is not string-coerced) and is
    flattened. *)
Definition isMerged (decls : string -> string -> option reflect.rtype)
    (implementsMarshaler : reflect.rtype -> bool)
    (field : reflect.StructField) : bool :=
  isPlainField implementsMarshaler field && isFlattened decls field.

(** A field with the tag [json:",omitempty"] that embeds [Inner]. *)
Definition embeddedOmitempty : reflect.StructField :=
  reflect.mkField "Inner" (named "Inner") [("json", ",omitempty")] true.

(**
<<
  package main
  type Base struct { Owner *Node }
  type Node struct { Base; Next *Node }
>>
*)
Definition tangledProgram : Program :=
  [ ("main", "Base",
     reflect.StructOf "" [plain "Owner" (reflect.PtrTo (named "Node"))]);
    ("main", "Node",
     reflect.StructOf "" [embedded "Base" (named "Base");
                          plain "Next" (reflect.PtrTo (named "Node"))]) ].

Definition tangledDecls : string -> string -> option reflect.rtype :=
  declsOf tangledProgram.


(* ===================================================================== *)
(** * The error monad *)
(* ===================================================================== *)

Lemma bind_Ok {A B : Type} (m : result A) (f : A -> result B) (y : B) :
  m ≫= f = Ok y -> exists x, m = Ok x /\ f x = Ok y.
Proof.
  destruct m as [x|e]; simpl; intros H; [eauto | discriminate].
Qed.

Lemma result_bind_Ok {A B : Type} (x : A) (f : A -> result B) :
  Ok x ≫= f = f x.
Proof. reflexivity. Qed.

(** Split a hypothesis [m ≫= f = Ok y] into the two runs. *)
Ltac bind_inv H :=
  let x := fresh "x" in
  let Hm := fresh "Hrun" in
  apply bind_Ok in H; destruct H as (x & Hm & H).

(* ===================================================================== *)
(** * Shapes of properties and growth of the registry *)
(* ===================================================================== *)

Lemma shapeOk_sentences (p : ModelProperty) :
  shapeOk p = true ->
  describedOnce p = true /\ scalarTypeWithRef p = false /\ itemsIffArray p = true.
Proof.
  unfold shapeOk, describedOnce, scalarTypeWithRef, itemsIffArray, exactlyOne,
    isArrayOfItems, hasScalarType, hasRef, hasArrayType, hasItems.
  destruct (Type_ p) as [t|], (Ref p) as [r|], (Items p) as [it|];
    try discriminate; try (destruct (String.eqb t "array"));
    simpl; intros H; try discriminate; rewrite ?H; auto.
Qed.

Lemma shapeOk_setDescription (d : string) (p : ModelProperty) :
  shapeOk (setDescription d p) = shapeOk p.
Proof. reflexivity. Qed.

Lemma lookupTable_schemaType_not_array (name mapped : string) :
  lookupTable schemaTypeMap name = Some mapped -> mapped <> "array".
Proof.
  unfold lookupTable, schemaTypeMap. cbn [List.find fst snd].
  repeat match goal with
         | |- context [String.eqb ?a name] => destruct (String.eqb a name)
         end; cbn [snd]; intros H; inversion H; discriminate.
Qed.

Lemma jsonSchemaType_primitive_not_array (name : string) :
  isPrimitiveType name = true -> String.eqb (jsonSchemaType name) "array" = false.
Proof.
  intros Hprim. apply String.eqb_neq. unfold jsonSchemaType.
  destruct (lookupTable schemaTypeMap name) as [mapped|] eqn:Hl.
  - eapply lookupTable_schemaType_not_array; eauto.
  - intros ->. vm_compute in Hprim. discriminate.
Qed.

Lemma modelOk_empty (name : string) : modelOk (mkModel name [] ∅).
Proof. unfold modelOk. simpl. apply map_Forall_empty. Qed.

Lemma modelOk_zero : modelOk zeroModel.
Proof. apply modelOk_empty. Qed.

Lemma modelOk_putProperty (k : string) (p : ModelProperty) (m : Model) :
  shapeOk p = true -> modelOk m -> modelOk (putProperty k p m).
Proof. unfold modelOk. simpl. intros Hp Hm. by apply map_Forall_insert_2. Qed.

Lemma modelOk_appendRequired (k : string) (m : Model) :
  modelOk m -> modelOk (appendRequired k m).
Proof. unfold modelOk. simpl. auto. Qed.

Lemma registryOk_empty : registryOk ∅.
Proof. apply map_Forall_empty. Qed.

Lemma registryOk_lookup_default (b : Models) (k : string) :
  registryOk b -> modelOk (default zeroModel (b !! k)).
Proof.
  intros Hb. destruct (b !! k) as [m|] eqn:Hk; simpl.
  - exact (Hb k m Hk).
  - apply modelOk_zero.
Qed.

Lemma grows_refl (b : Models) : grows b b.
Proof. split; auto. Qed.

Lemma grows_trans (b1 b2 b3 : Models) : grows b1 b2 -> grows b2 b3 -> grows b1 b3.
Proof. intros [H1 H1'] [H2 H2']. split; [set_solver | auto]. Qed.

Lemma grows_insert (b : Models) (k : string) (m : Model) :
  modelOk m -> grows b (<[k := m]> b).
Proof.
  intros Hm. split.
  - rewrite dom_insert_L. set_solver.
  - intros Hb. by apply map_Forall_insert_2.
Qed.

Create HintDb builder.

#[local] Hint Resolve grows_refl grows_insert modelOk_empty modelOk_zero
  modelOk_putProperty modelOk_appendRequired registryOk_empty
  registryOk_lookup_default : builder.

Section Invariants.

Variable decls : string -> string -> option reflect.rtype.
Variable implementsMarshaler : reflect.rtype -> bool.

Lemma keeps_refl (b : Models) (model : Model) : keeps b model b model.
Proof. unfold keeps. auto with builder. Qed.

Lemma keeps_registry (b b' : Models) (model : Model) :
  grows b b' -> keeps b model b' model.
Proof. unfold keeps. auto. Qed.

Lemma keeps_trans b1 m1 b2 m2 b3 m3 :
  keeps b1 m1 b2 m2 -> keeps b2 m2 b3 m3 -> keeps b1 m1 b3 m3.
Proof.
  intros (Hg1 & Hm1 & Hi1) (Hg2 & Hm2 & Hi2).
  split; [eapply grows_trans; eauto|]. split; [auto | congruence].
Qed.

Section Step.

Variable rec : Models -> reflect.rtype -> string -> result (Models * option Model).
Hypothesis rec_grows :
  forall b st n b' r, rec b st n = Ok (b', r) -> grows b b'.

Lemma mergeProperty_post (sub : Models) (subModel : Model)
    (kvs : list (string * ModelProperty)) :
  registryOk sub ->
  Forall (fun kv => shapeOk kv.2 = true) kvs ->
  forall b model b' model',
    foldl (mergeProperty sub subModel) (b, model) kvs = (b', model') ->
    keeps b model b' model'.
Proof.
  intros Hsub. induction 1 as [|[k v] kvs Hv _ IH]; simpl; intros b model b' model' H.
  - inversion H; subst. apply keeps_refl.
  - apply IH in H. simpl in Hv. eapply keeps_trans; [|exact H].
    split; [|split].
    + destruct (Ref v); auto with builder.
    + intros Hmodel. destruct (existsb _ _); auto with builder.
    + by destruct (existsb _ _).
Qed.

Lemma buildStructTypeProperty_post b field jsonName model out :
  buildStructTypeProperty rec b field jsonName model = Ok out ->
  fieldPost b model out.
Proof.
  unfold buildStructTypeProperty, fieldPost. intros H.
  destruct (String.length _ =? 0).
  - bind_inv H. destruct x as [b1 r]. inversion H; subst; simpl.
    split; [apply keeps_registry; eauto | auto].
  - destruct (_ && _ && _).
    + bind_inv H. destruct x as [sub r].
      destruct (foldl _ _ _) as [b1 model1] eqn:Hfold.
      inversion H; subst; simpl. split; [|done].
      assert (Hsub : registryOk sub).
      { apply rec_grows in Hrun as [_ Hok]. auto with builder. }
      eapply mergeProperty_post; [exact Hsub| |exact Hfold].
      apply Forall_forall. intros [k v] Hin. simpl.
      apply elem_of_map_to_list in Hin.
      exact (registryOk_lookup_default sub _ Hsub k v Hin).
    + bind_inv H. destruct x as [b1 r]. inversion H; subst; simpl.
      split; [apply keeps_registry; eauto | auto].
Qed.

Lemma buildArrayTypeProperty_post b field jsonName modelName model out :
  buildArrayTypeProperty decls rec b field jsonName modelName model = Ok out ->
  fieldPost b model out.
Proof.
  unfold buildArrayTypeProperty, fieldPost. intros H.
  bind_inv H. bind_inv H. bind_inv H. destruct x1 as [b1 r].
  inversion H; subst; simpl. split; [apply keeps_registry; eauto|].
  intros _. by destruct (isPrimitiveType _).
Qed.

Lemma buildPointerTypeProperty_post b field jsonName modelName model out :
  buildPointerTypeProperty decls rec b field jsonName modelName model = Ok out ->
  fieldPost b model out.
Proof.
  unfold buildPointerTypeProperty, fieldPost. intros H.
  bind_inv H. destruct (_ || _).
  - bind_inv H. bind_inv H. destruct x1 as [b1 r].
    inversion H; subst; simpl. split; [apply keeps_registry; eauto | auto].
  - destruct (String.eqb _ _); bind_inv H; destruct x0 as [b1 r];
      inversion H; subst; simpl; (split; [apply keeps_registry; eauto | auto]).
Qed.

Lemma buildProperty_post b field model modelName out :
  buildProperty decls implementsMarshaler rec b field model modelName = Ok out ->
  fieldPost b model out.
Proof.
  unfold buildProperty. intros H.
  destruct (String.length _ =? 0).
  { inversion H; subst. split; [apply keeps_refl | done]. }
  destruct (implementsMarshaler _).
  { inversion H; subst. split; [apply keeps_refl | done]. }
  destruct (isStringAnnotated _).
  { inversion H; subst. split; [apply keeps_refl | done]. }
  destruct (kindIs _ _ reflect.Struct).
  { eapply buildStructTypeProperty_post; eauto. }
  destruct (_ || _).
  { eapply buildArrayTypeProperty_post; eauto. }
  destruct (kindIs _ _ reflect.Ptr).
  { eapply buildPointerTypeProperty_post; eauto. }
  destruct (kindIs _ _ reflect.String).
  { inversion H; subst. split; [apply keeps_refl | done]. }
  destruct (kindIs _ _ reflect.Map).
  { inversion H; subst. split; [apply keeps_refl | done]. }
  destruct (isPrimitiveType _) eqn:Hprim.
  { inversion H; subst. split; [apply keeps_refl|].
    intros _. unfold shapeOk; simpl.
    by rewrite jsonSchemaType_primitive_not_array. }
  destruct (String.eqb _ _).
  - bind_inv H. destruct x as [b1 r]. inversion H; subst.
    split; [apply keeps_registry; eauto | done].
  - inversion H; subst. split; [apply keeps_refl | done].
Qed.

Lemma addModel_field_post modelName b sm field b' sm' :
  addModel_field decls implementsMarshaler rec modelName (b, sm) field = Ok (b', sm') ->
  keeps b sm b' sm'.
Proof.
  unfold addModel_field. intros H. bind_inv H.
  destruct x as [[b1 sm1] [jsonName prop]].
  apply buildProperty_post in Hrun as ((Hg & Hm & Hid) & Hp).
  simpl in Hg, Hm, Hid, Hp.
  destruct (String.length jsonName =? 0) eqn:Hlen; simpl in H.
  - inversion H; subst. by split.
  - inversion H; subst. split; [auto|]. split.
    + intros Hsm.
      assert (Hne : jsonName <> "").
      { intros ->. discriminate. }
      apply modelOk_putProperty.
      * destruct (negb _); [rewrite shapeOk_setDescription|]; auto.
      * destruct (isPropertyRequired field); auto with builder.
    + by destruct (isPropertyRequired field).
Qed.

Lemma addModel_fields_post modelName fields :
  forall b sm b' sm',
    foldResult (addModel_field decls implementsMarshaler rec modelName) (b, sm) fields
      = Ok (b', sm') ->
    keeps b sm b' sm'.
Proof.
  induction fields as [|f fields IH]; simpl; intros b sm b' sm' H.
  - inversion H; subst. apply keeps_refl.
  - bind_inv H. destruct x as [b1 sm1].
    apply addModel_field_post in Hrun. apply IH in H.
    eapply keeps_trans; eauto.
Qed.

(** What [addModel] answers: nil and an untouched registry for a name that
    is primitive or present, and otherwise the Model it built, whose
    properties are well-shaped and which, for a struct, is the registry's
    entry under the model name. *)
Lemma addModel_body_post b st nameOverride b' r :
  addModel_body decls implementsMarshaler rec b st nameOverride = Ok (b', r) ->
  grows b b'
  /\ match r with
     | Some m =>
         isPrimitiveType (modelNameOf st nameOverride) = false
         /\ b !! modelNameOf st nameOverride = None
         /\ modelOk m
         /\ Id m = modelNameOf st nameOverride
         /\ (kindIs decls st reflect.Struct = true ->
             b' !! modelNameOf st nameOverride = Some m)
     | None =>
         b' = b
         /\ (isPrimitiveType (modelNameOf st nameOverride) = true
             \/ is_Some (b !! modelNameOf st nameOverride))
     end
  /\ (isPrimitiveType (modelNameOf st nameOverride) = false ->
      modelNameOf st nameOverride ∈ dom b').
Proof.
  unfold addModel_body. intros H.
  set (modelName := modelNameOf st nameOverride) in *.
  destruct (isPrimitiveType modelName) eqn:Hprim.
  { inversion H; subst. split; [auto with builder|]. split; [auto|discriminate]. }
  destruct (b !! modelName) as [m0|] eqn:Hpresent.
  { inversion H; subst. split; [auto with builder|]. split; [eauto|].
    intros _. apply elem_of_dom. eauto. }
  assert (Hplace : grows b (<[modelName := mkModel modelName [] ∅]> b))
    by auto with builder.
  assert (Hin : modelName ∈ dom (<[modelName := mkModel modelName [] ∅]> b)).
  { rewrite dom_insert_L. apply elem_of_union_l, elem_of_singleton. reflexivity. }
  destruct (kindIs decls st reflect.Struct) eqn:Hstruct.
  - assert (Hkinds : kindIs decls st reflect.Slice || kindIs decls st reflect.Array
                     = false).
    { unfold kindIs in *. by destruct (reflect.TypeKind decls st). }
    rewrite Hkinds in H. simpl in H.
    bind_inv H. bind_inv H. destruct x0 as [b1 sm1]. inversion H; subst.
    apply addModel_fields_post in Hrun0 as (Hg & Hm & Hid).
    assert (Hsm : modelOk sm1) by auto with builder.
    split; [|split].
    + eapply grows_trans; [exact Hplace|]. eapply grows_trans; [exact Hg|].
      auto with builder.
    + repeat split; auto. intros _. apply lookup_insert_eq.
    + intros _. rewrite dom_insert_L. apply elem_of_union_l, elem_of_singleton.
      reflexivity.
  - destruct (_ || _).
    + bind_inv H. bind_inv H. destruct x0 as [b1 r1]. inversion H; subst.
      apply rec_grows in Hrun0. split; [eapply grows_trans; eauto|].
      split; [repeat split; auto with builder; discriminate|].
      intros _. destruct Hrun0 as [Hdom _]. exact (Hdom _ Hin).
    + simpl in H. inversion H; subst. split; [auto|].
      split; [repeat split; auto with builder; discriminate | auto].
Qed.

End Step.

Lemma addModel_post fuel :
  forall b st nameOverride b' r,
    addModel decls implementsMarshaler fuel b st nameOverride = Ok (b', r) ->
    grows b b'
    /\ match r with
       | Some m =>
           isPrimitiveType (modelNameOf st nameOverride) = false
           /\ b !! modelNameOf st nameOverride = None
           /\ modelOk m
           /\ Id m = modelNameOf st nameOverride
           /\ (kindIs decls st reflect.Struct = true ->
               b' !! modelNameOf st nameOverride = Some m)
       | None =>
           b' = b
           /\ (isPrimitiveType (modelNameOf st nameOverride) = true
               \/ is_Some (b !! modelNameOf st nameOverride))
       end
    /\ (isPrimitiveType (modelNameOf st nameOverride) = false ->
        modelNameOf st nameOverride ∈ dom b').
Proof.
  induction fuel as [|fuel IH]; simpl; intros b st nameOverride b' r H.
  - discriminate.
  - eapply addModel_body_post; [|exact H].
    intros b0 st0 n0 b0' r0 H0. by apply IH in H0 as [Hg _].
Qed.

End Invariants.

(* ===================================================================== *)
(** * More fuel changes no result *)
(* ===================================================================== *)

Section Fuel.

Variable decls : string -> string -> option reflect.rtype.
Variable implementsMarshaler : reflect.rtype -> bool.

Section Step.

Variables rec rec' : Models -> reflect.rtype -> string -> result (Models * option Model).
Hypothesis rec_le : forall b st n x, rec b st n = Ok x -> rec' b st n = Ok x.

Lemma buildStructTypeProperty_mono b field jsonName model out :
  buildStructTypeProperty rec b field jsonName model = Ok out ->
  buildStructTypeProperty rec' b field jsonName model = Ok out.
Proof.
  unfold buildStructTypeProperty. intros H.
  destruct (String.length _ =? 0); [|destruct (_ && _ && _)];
    bind_inv H; apply rec_le in Hrun; by rewrite Hrun.
Qed.

Lemma buildArrayTypeProperty_mono b field jsonName modelName model out :
  buildArrayTypeProperty decls rec b field jsonName modelName model = Ok out ->
  buildArrayTypeProperty decls rec' b field jsonName modelName model = Ok out.
Proof.
  unfold buildArrayTypeProperty. intros H.
  bind_inv H. rewrite Hrun, result_bind_Ok.
  bind_inv H. rewrite Hrun0, result_bind_Ok.
  bind_inv H. apply rec_le in Hrun1. by rewrite Hrun1.
Qed.

Lemma buildPointerTypeProperty_mono b field jsonName modelName model out :
  buildPointerTypeProperty decls rec b field jsonName modelName model = Ok out ->
  buildPointerTypeProperty decls rec' b field jsonName modelName model = Ok out.
Proof.
  unfold buildPointerTypeProperty. intros H.
  bind_inv H. rewrite Hrun, result_bind_Ok.
  destruct (_ || _).
  - bind_inv H. rewrite Hrun0, result_bind_Ok.
    bind_inv H. apply rec_le in Hrun1. by rewrite Hrun1.
  - destruct (String.eqb _ _); bind_inv H; apply rec_le in Hrun0; by rewrite Hrun0.
Qed.

Lemma buildProperty_mono b field model modelName out :
  buildProperty decls implementsMarshaler rec b field model modelName = Ok out ->
  buildProperty decls implementsMarshaler rec' b field model modelName = Ok out.
Proof.
  unfold buildProperty. intros H.
  destruct (String.length _ =? 0); [done|].
  destruct (implementsMarshaler _); [done|].
  destruct (isStringAnnotated _); [done|].
  destruct (kindIs _ _ reflect.Struct); [by apply buildStructTypeProperty_mono|].
  destruct (_ || _); [by apply buildArrayTypeProperty_mono|].
  destruct (kindIs _ _ reflect.Ptr); [by apply buildPointerTypeProperty_mono|].
  destruct (kindIs _ _ reflect.String); [done|].
  destruct (kindIs _ _ reflect.Map); [done|].
  destruct (isPrimitiveType _); [done|].
  destruct (String.eqb _ _); [|done].
  bind_inv H. apply rec_le in Hrun. by rewrite Hrun.
Qed.

Lemma addModel_field_mono modelName st field out :
  addModel_field decls implementsMarshaler rec modelName st field = Ok out ->
  addModel_field decls implementsMarshaler rec' modelName st field = Ok out.
Proof.
  unfold addModel_field. destruct st as [b sm]. intros H.
  bind_inv H. apply buildProperty_mono in Hrun. by rewrite Hrun.
Qed.

Lemma addModel_fields_mono modelName fields :
  forall st out,
    foldResult (addModel_field decls implementsMarshaler rec modelName) st fields = Ok out ->
    foldResult (addModel_field decls implementsMarshaler rec' modelName) st fields = Ok out.
Proof.
  induction fields as [|f fields IH]; intros st out H; cbn [foldResult] in *.
  - exact H.
  - bind_inv H. apply addModel_field_mono in Hrun. rewrite Hrun, result_bind_Ok.
    by apply IH.
Qed.

Lemma addModel_body_mono b st nameOverride out :
  addModel_body decls implementsMarshaler rec b st nameOverride = Ok out ->
  addModel_body decls implementsMarshaler rec' b st nameOverride = Ok out.
Proof.
  unfold addModel_body. intros H.
  destruct (isPrimitiveType _); [done|].
  destruct (b !! _); [done|].
  destruct (_ || _).
  - bind_inv H. rewrite Hrun, result_bind_Ok.
    bind_inv H. apply rec_le in Hrun0. by rewrite Hrun0.
  - destruct (negb _); [done|].
    bind_inv H. rewrite Hrun, result_bind_Ok.
    bind_inv H. apply addModel_fields_mono in Hrun0. by rewrite Hrun0.
Qed.

End Step.

(** A call that returns with some fuel returns the same with more. *)
Lemma addModel_fuel_mono fuel fuel' :
  fuel <= fuel' ->
  forall b st nameOverride out,
    addModel decls implementsMarshaler fuel b st nameOverride = Ok out ->
    addModel decls implementsMarshaler fuel' b st nameOverride = Ok out.
Proof.
  revert fuel'. induction fuel as [|fuel IH]; intros fuel' Hle b st n out H.
  - discriminate.
  - destruct fuel' as [|fuel']; [lia|]. simpl in *.
    eapply addModel_body_mono; [|exact H].
    intros b0 st0 n0 x. apply IH. lia.
Qed.

End Fuel.

(* ===================================================================== *)
(** * Registering a type that is already there *)
(* ===================================================================== *)

Lemma addModel_skips decls implementsMarshaler fuel (b : Models) st nameOverride :
  isPrimitiveType (modelNameOf st nameOverride) = true
  \/ modelNameOf st nameOverride ∈ dom b ->
  addModel decls implementsMarshaler (S fuel) b st nameOverride = Ok (b, None).
Proof.
  intros H. simpl. unfold addModel_body.
  destruct (isPrimitiveType _); [reflexivity|].
  destruct H as [H|H]; [discriminate|].
  apply elem_of_dom in H as [m ->]. reflexivity.
Qed.

(** C2. Registering a sample a second time changes nothing: the second
    [addModel] finds the canonical name present (or classified primitive) and
    returns nil with the registry as it was, so the registry after two
    registrations is the registry after one, and [PostBuildModel] is not
    called by the second one. *)
Theorem C2_register_twice decls implementsMarshaler fuel (b : Models) sample b1 calls :
  addModelFrom decls implementsMarshaler fuel b sample = Ok (b1, calls) ->
  forall fuel',
    addModel decls implementsMarshaler (S fuel') b1 (SampleType sample) ""
      = Ok (b1, None)
    /\ addModelFrom decls implementsMarshaler (S fuel') b1 sample = Ok (b1, []).
Proof.
  intros H fuel'.
  assert (Hskip : addModel decls implementsMarshaler (S fuel') b1 (SampleType sample) ""
                  = Ok (b1, None)).
  { apply addModel_skips.
    destruct (isPrimitiveType (modelNameOf (SampleType sample) "")) eqn:Hprim;
      [by left | right].
    unfold addModelFrom in H. bind_inv H. destruct x as [b0 r].
    apply addModel_post in Hrun as (_ & _ & Hin). specialize (Hin Hprim).
    destruct r as [m|]; [destruct (PostBuildModel sample) as [hook|]|].
    - bind_inv H. inversion H; subst. rewrite dom_insert_L.
      by apply elem_of_union_r.
    - by inversion H; subst.
    - by inversion H; subst. }
  split; [exact Hskip|].
  unfold addModelFrom. rewrite Hskip. reflexivity.
Qed.

(** [main.T], registered with its hook and then once more. *)
Lemma C2_register_twice_witness :
  addModelFrom sampleDecls noMarshaler 2 ∅ buildableT
  = Ok ({[ "main.T" := modelAnnotatedT ]}, [modelT])
  /\ addModel sampleDecls noMarshaler 1 {[ "main.T" := modelAnnotatedT ]}
       (SampleType buildableT) ""
     = Ok ({[ "main.T" := modelAnnotatedT ]}, None)
  /\ addModelFrom sampleDecls noMarshaler 1 {[ "main.T" := modelAnnotatedT ]} buildableT
     = Ok ({[ "main.T" := modelAnnotatedT ]}, []).
Proof.
  assert (Hrun : addModelFrom sampleDecls noMarshaler 2 ∅ buildableT
                 = Ok ({[ "main.T" := modelAnnotatedT ]}, [modelT]))
    by (vm_compute; reflexivity).
  split; [exact Hrun|].
  exact (C2_register_twice sampleDecls noMarshaler 2 ∅ buildableT _ _ Hrun 0).
Defined.

(* ===================================================================== *)
(** * The shape invariant *)
(* ===================================================================== *)

(** C8. Every property the builder stores in a Model is described in
    exactly one way (a non-array Type, a Ref, or Type "array" with populated
    Items), never carries a non-array Type together with a Ref, and has Items
    exactly when its Type is "array": if this holds of a registry, it holds
    of the registry [addModel] leaves and of the Model it returns. *)
Theorem C8_property_shape decls implementsMarshaler fuel (b : Models) st nameOverride b' r :
  registryOk b ->
  addModel decls implementsMarshaler fuel b st nameOverride = Ok (b', r) ->
  forall (m : Model) (k : string) (p : ModelProperty),
    (exists name, b' !! name = Some m) \/ r = Some m ->
    Properties m !! k = Some p ->
    describedOnce p = true /\ scalarTypeWithRef p = false /\ itemsIffArray p = true.
Proof.
  intros Hb H m k p Hm Hp.
  apply addModel_post in H as ([_ Hok] & Hr & _).
  apply shapeOk_sentences.
  destruct Hm as [[name Hm] | ->].
  - exact (Hok Hb name m Hm k p Hp).
  - destruct Hr as (_ & _ & Hr & _). exact (Hr k p Hp).
Qed.

Lemma C8_property_shape_witness :
  registryOk ∅
  /\ addModel sampleDecls noMarshaler 3 ∅ (named "Wrap") ""
     = Ok ({[ "main.Wrap" := modelWrap; "main.Leaf" := modelLeaf ]}, Some modelWrap)
  /\ Properties modelWrap !! "To" = Some (refTo "main.Leaf")
  /\ describedOnce (refTo "main.Leaf") = true
  /\ scalarTypeWithRef (refTo "main.Leaf") = false
  /\ itemsIffArray (refTo "main.Leaf") = true.
Proof.
  assert (Hrun : addModel sampleDecls noMarshaler 3 ∅ (named "Wrap") ""
                 = Ok ({[ "main.Wrap" := modelWrap; "main.Leaf" := modelLeaf ]},
                       Some modelWrap)) by (vm_compute; reflexivity).
  split; [exact registryOk_empty|]. split; [exact Hrun|]. split; [reflexivity|].
  apply (C8_property_shape sampleDecls noMarshaler 3 ∅ (named "Wrap") "" _ _
           registryOk_empty Hrun modelWrap "To" (refTo "main.Leaf"));
    [right; reflexivity | reflexivity].
Defined.

(* ===================================================================== *)
(** * Slices and arrays of primitives *)
(* ===================================================================== *)

(** The element kinds that the table of [jsonSchemaType] maps to
    "integer", "number" or "boolean". *)
Lemma mapped_elements_are_not_primitive :
  forallb
    (fun k => negb (isPrimitiveType
                      (getElementTypeName sampleDecls "main.Blob" "Data"
                         (reflect.Basic k))))
    [reflect.Bool; reflect.Int; reflect.Int8; reflect.Int16; reflect.Int32;
     reflect.Int64; reflect.Uint8; reflect.Uint16; reflect.Uint32;
     reflect.Uint64; reflect.Float32; reflect.Float64] = true
  /\ isPrimitiveType (getElementTypeName sampleDecls "main.Blob" "Data" tString) = true.
Proof. split; vm_compute; reflexivity. Qed.

(** C3. A field [Data []uint8]: [getElementTypeName] already maps the
    element name to "integer", which [isPrimitiveType] does not know, so the
    property gets [Items.Ref = "integer"] and no [Items.Type], and an empty
    Model named "integer" enters the registry. *)
Theorem C3_slice_of_uint8 :
  getElementTypeName sampleDecls "main.Blob" "Data" tUint8 = "integer"
  /\ isPrimitiveType "integer" = false
  /\ synthesize 2 ∅ (named "Blob") = Ok (registryBlob, Some modelBlob)
  /\ Properties modelBlob !! "Data" = Some (arrayOfRef "integer")
  /\ arrayOfRef "integer" <> arrayOfType "integer".
Proof.
  split; [reflexivity|]. split; [reflexivity|].
  split; [vm_compute; reflexivity|]. split; [reflexivity|discriminate].
Qed.

(* ===================================================================== *)
(** * The primitive test *)
(* ===================================================================== *)

Lemma append_cons (c : ascii) (s t : string) :
  String c s +:+ t = String c (s +:+ t).
Proof. reflexivity. Qed.

Lemma prefix_spec (p s : string) :
  String.prefix p s = true <-> exists post, s = p +:+ post.
Proof.
  revert s. induction p as [|c p IH]; intros s.
  - destruct s; simpl; split; eauto.
  - destruct s as [|d s]; simpl.
    + split; [discriminate | intros [post H]; discriminate].
    + destruct (Ascii.ascii_dec c d) as [->|Hne].
      * rewrite IH. split; intros [post H]; exists post;
          rewrite append_cons in *; congruence.
      * split; [discriminate|]. intros [post H].
        rewrite append_cons in H. congruence.
Qed.

(** [strings.Contains] finds exactly the substrings. *)
Lemma Contains_spec (s substr : string) :
  GoStrings.Contains s substr = true
  <-> exists pre post, s = pre +:+ substr +:+ post.
Proof.
  induction s as [|c s IH]; cbn [GoStrings.Contains].
  - rewrite orb_false_r, prefix_spec. split.
    + intros [post H]. exists "", post. exact H.
    + intros (pre & post & H). destruct pre; [|discriminate]. eauto.
  - rewrite orb_true_iff, IH, prefix_spec. split.
    + intros [[post H]|(pre & post & H)].
      * exists "", post. exact H.
      * exists (String c pre), post. rewrite append_cons. congruence.
    + intros (pre & post & H). destruct pre as [|d pre].
      * left. eauto.
      * right. exists pre, post. rewrite append_cons in H. congruence.
Qed.

(** What [isPrimitiveType] decides: whether the name occurs in the text of
    the list. *)
Lemma isPrimitiveType_spec (name : string) :
  isPrimitiveType name = true
  <-> exists pre post, primitiveNames = pre +:+ name +:+ post.
Proof. apply Contains_spec. Qed.

(** C4. Every name of the allow-list is classified primitive, but so is
    every other substring of the list's text: "T" is not on the list and
    [isPrimitiveType "T"] holds.  For a field [Items []T] of a struct type
    [main.T] the element is then taken for a primitive: the property gets
    [Items.Type = "T"], and no Model for [main.T] is registered. *)
Theorem C4_substring_taken_for_primitive :
  forallb isPrimitiveType allowList = true
  /\ onAllowList "T" = false
  /\ isPrimitiveType "T" = true
  /\ getElementTypeName sampleDecls "main.Batch" "Items" (named "T") = "T"
  /\ synthesize 3 ∅ (named "Batch") = Ok ({[ "main.Batch" := modelBatch ]}, Some modelBatch)
  /\ Properties modelBatch !! "Items" = Some (arrayOfType "T")
  /\ synthesize 3 ∅ (named "T") = Ok ({[ "main.T" := modelT ]}, Some modelT).
Proof.
  repeat split; vm_compute; reflexivity.
Qed.

(* ===================================================================== *)
(** * Required fields *)
(* ===================================================================== *)

(** C5. [isPropertyRequired] looks at the first option of the json tag
    only.  The field [N int `json:"n,string,omitempty"`] carries omitempty
    as its second option: it is reported as required and its name is in
    [Required].  The field [M int `json:"m,omitempty"`] of the same struct is
    absent from [Required] and present in [Properties]. *)
Theorem C5_omitempty_as_second_option :
  hasOmitempty (tagged "N" tInt "n,string,omitempty") = true
  /\ isPropertyRequired (tagged "N" tInt "n,string,omitempty") = true
  /\ hasOmitempty (tagged "M" tInt "m,omitempty") = true
  /\ isPropertyRequired (tagged "M" tInt "m,omitempty") = false
  /\ synthesize 2 ∅ (named "Count") = Ok ({[ "main.Count" := modelCount ]}, Some modelCount)
  /\ Required modelCount = ["n"]
  /\ Properties modelCount !! "m" = Some (scalarOf "integer" "int32").
Proof.
  repeat split; vm_compute; reflexivity.
Qed.

(* ===================================================================== *)
(** * Pointers to slices *)
(* ===================================================================== *)

(** A pointer to a slice or array never gets [Items.Type]. *)
Lemma buildPointerTypeProperty_items_ref decls rec (b : Models) field jsonName
    modelName model pointee out :
  reflect.TypeElem decls (reflect.FieldType field) = Some pointee ->
  kindIs decls pointee reflect.Slice || kindIs decls pointee reflect.Array = true ->
  buildPointerTypeProperty decls rec b field jsonName modelName model = Ok out ->
  exists name, out.2 = (jsonName, arrayOfRef name).
Proof.
  unfold buildPointerTypeProperty, elemOf. intros -> Hkind H.
  cbn [orPanic] in H. rewrite result_bind_Ok, Hkind in H.
  bind_inv H. bind_inv H. destruct x0 as [b1 r]. inversion H; subst. simpl. eauto.
Qed.

(** C6. For [Direct []string] the slice rule gives [Items.Type = "string"];
    for [Indirect *[]string] the pointer rule gives [Items.Ref = "string"]:
    it never fills [Items.Type].  The two properties differ, on the same
    registry, model and names. *)
Theorem C6_pointer_to_slice_of_string :
  buildArrayTypeProperty sampleDecls (addModel sampleDecls noMarshaler 1) ∅
    (plain "F" (reflect.SliceOf tString)) "F" "main.Names" zeroModel
  = Ok (∅, zeroModel, ("F", arrayOfType "string"))
  /\ buildPointerTypeProperty sampleDecls (addModel sampleDecls noMarshaler 1) ∅
       (plain "F" (reflect.PtrTo (reflect.SliceOf tString))) "F" "main.Names" zeroModel
     = Ok (∅, zeroModel, ("F", arrayOfRef "string"))
  /\ arrayOfRef "string" <> arrayOfType "string"
  /\ synthesize 2 ∅ (named "Names") = Ok ({[ "main.Names" := modelNames ]}, Some modelNames).
Proof.
  repeat split; try (vm_compute; reflexivity). discriminate.
Qed.

(* ===================================================================== *)
(** * The JSON name of a field *)
(* ===================================================================== *)

Lemma Split_head (tag : string) :
  part (GoStrings.Split tag ",") 0 = namePart tag.
Proof.
  unfold part. induction tag as [|c tag IH]; simpl; [reflexivity|].
  destruct (Ascii.eqb c ","); [reflexivity|].
  destruct (GoStrings.Split tag ",") as [|x xs]; simpl in *; congruence.
Qed.

Lemma jsonNameOfField_spec (field : reflect.StructField) :
  jsonNameOfField field = jsonNameSpec field.
Proof.
  unfold jsonNameOfField, jsonNameSpec. rewrite Split_head.
  destruct (String.eqb_spec (jsonTagOf field) "") as [->|Hne]; simpl.
  - reflexivity.
  - destruct (String.eqb (namePart _) "-"); [reflexivity|].
    by destruct (String.eqb (namePart _) "").
Qed.

Lemma jsonNameOfField_skips (field : reflect.StructField) :
  reflect.FieldName field <> "" ->
  jsonNameOfField field = "" <-> namePart (jsonTagOf field) = "-".
Proof.
  intros Hname. rewrite jsonNameOfField_spec. unfold jsonNameSpec.
  destruct (String.eqb_spec (namePart (jsonTagOf field)) "-") as [->|Hdash].
  - split; reflexivity.
  - destruct (String.eqb_spec (namePart (jsonTagOf field)) "") as [He|He];
      split; intros H; congruence.
Qed.

Lemma length_zero_eqb (s : string) :
  (String.length s =? 0) = String.eqb s "".
Proof. by destruct s. Qed.

(** Which name [buildProperty] returns: the JSON name of the field, or none
    for an embedded struct that is flattened. *)
Lemma buildProperty_name decls implementsMarshaler rec b field model modelName out :
  buildProperty decls implementsMarshaler rec b field model modelName = Ok out ->
  out.2.1 = jsonNameOfField field
  \/ (out.2.1 = "" /\ isFlattened decls field = true).
Proof.
  unfold buildProperty, isFlattened. intros H.
  rewrite length_zero_eqb in H.
  destruct (String.eqb_spec (jsonNameOfField field) "") as [Hlen|Hlen].
  { inversion H; subst; simpl. by left. }
  destruct (implementsMarshaler _); [inversion H; subst; by left|].
  destruct (isStringAnnotated _); [inversion H; subst; by left|].
  destruct (kindIs _ _ reflect.Struct).
  { unfold buildStructTypeProperty in H. rewrite length_zero_eqb in H.
    destruct (String.eqb (reflect.TypeName _) "").
    - bind_inv H. destruct x as [b1 r]. inversion H; subst. by left.
    - destruct (_ && _ && _) eqn:Hemb.
      + bind_inv H. destruct x as [sub r]. destruct (foldl _ _ _).
        inversion H; subst; simpl. right. split; [reflexivity|].
        by rewrite <- !andb_assoc in *.
      + bind_inv H. destruct x as [b1 r]. inversion H; subst. by left. }
  destruct (_ || _).
  { unfold buildArrayTypeProperty in H. bind_inv H. bind_inv H. bind_inv H.
    destruct x1 as [b1 r]. inversion H; subst. by left. }
  destruct (kindIs _ _ reflect.Ptr).
  { unfold buildPointerTypeProperty in H. bind_inv H. destruct (_ || _).
    - bind_inv H. bind_inv H. destruct x1 as [b1 r]. inversion H; subst. by left.
    - destruct (String.eqb _ _); bind_inv H; destruct x0 as [b1 r];
        inversion H; subst; by left. }
  destruct (kindIs _ _ reflect.String); [inversion H; subst; by left|].
  destruct (kindIs _ _ reflect.Map); [inversion H; subst; by left|].
  destruct (isPrimitiveType _); [inversion H; subst; by left|].
  destruct (String.eqb _ _).
  - bind_inv H. destruct x as [b1 r]. inversion H; subst. by left.
  - inversion H; subst. by left.
Qed.

(** The loop body of [addModel] on a field that is not flattened: the
    property is stored under the JSON name, and the name is appended to
    [Required] when [isPropertyRequired] says so. *)
Lemma addModel_field_stores decls implementsMarshaler rec modelName b sm field b' sm' :
  jsonNameOfField field <> "" ->
  isFlattened decls field = false ->
  addModel_field decls implementsMarshaler rec modelName (b, sm) field = Ok (b', sm') ->
  exists sm1 prop,
    sm' = putProperty (jsonNameOfField field) prop
            (if isPropertyRequired field
             then appendRequired (jsonNameOfField field) sm1 else sm1).
Proof.
  intros Hname Hflat H. unfold addModel_field in H. bind_inv H.
  destruct x as [[b1 sm1] [jsonName prop]].
  apply buildProperty_name in Hrun as [Hjn|[_ Hjn]]; simpl in Hjn; [|congruence].
  subst jsonName. rewrite length_zero_eqb in H.
  destruct (String.eqb_spec (jsonNameOfField field) "") as [?|_]; [done|].
  simpl in H. inversion H; subst. eauto.
Qed.

(** Which name [buildProperty] returns: the JSON name of the field, or none
    for an embedded struct whose properties are merged. *)
Lemma buildProperty_name_merged decls implementsMarshaler rec b field model modelName
    out :
  buildProperty decls implementsMarshaler rec b field model modelName = Ok out ->
  if isMerged decls implementsMarshaler field
  then out.2.1 = "" else out.2.1 = jsonNameOfField field.
Proof.
  unfold buildProperty, isMerged, isPlainField, isFlattened. intros H.
  rewrite length_zero_eqb in *.
  destruct (String.eqb_spec (jsonNameOfField field) "") as [Hlen|Hlen].
  { inversion H; subst; simpl. by rewrite Hlen. }
  cbn [negb andb].
  destruct (implementsMarshaler _); [inversion H; subst; done|].
  destruct (isStringAnnotated _); [inversion H; subst; done|].
  cbn [negb andb].
  destruct (kindIs _ _ reflect.Struct).
  { unfold buildStructTypeProperty in H. rewrite length_zero_eqb in H.
    destruct (String.eqb (reflect.TypeName _) "").
    - bind_inv H. destruct x as [b1 r]. inversion H; subst. done.
    - cbn [negb andb]. rewrite <- !andb_assoc.
      destruct (String.eqb (reflect.FieldName field) _
                && (reflect.FieldAnonymous field && negb (hasNamedJSONTag field)))
        eqn:Hemb.
      + rewrite andb_assoc in Hemb. rewrite Hemb in H.
        bind_inv H. destruct x as [sub r]. destruct (foldl _ _ _).
        by inversion H; subst.
      + rewrite andb_assoc in Hemb. rewrite Hemb in H.
        bind_inv H. destruct x as [b1 r]. by inversion H; subst. }
  cbn [andb].
  destruct (_ || _).
  { unfold buildArrayTypeProperty in H. bind_inv H. bind_inv H. bind_inv H.
    destruct x1 as [b1 r]. by inversion H; subst. }
  destruct (kindIs _ _ reflect.Ptr).
  { unfold buildPointerTypeProperty in H. bind_inv H. destruct (_ || _).
    - bind_inv H. bind_inv H. destruct x1 as [b1 r]. by inversion H; subst.
    - destruct (String.eqb _ _); bind_inv H; destruct x0 as [b1 r];
        by inversion H; subst. }
  destruct (kindIs _ _ reflect.String); [by inversion H; subst|].
  destruct (kindIs _ _ reflect.Map); [by inversion H; subst|].
  destruct (isPrimitiveType _); [by inversion H; subst|].
  destruct (String.eqb _ _).
  - bind_inv H. destruct x as [b1 r]. by inversion H; subst.
  - by inversion H; subst.
Qed.

(** C10, as stated, fails for an embedded struct whose properties are
    merged into the parent.  [Outer] embeds [Inner] without a tag: the name
    part of the tag is not a dash and the JSON-visible name is [Inner], yet
    the Model of [Outer] has no property and no required name [Inner].  The
    same holds when the embedded field carries the tag [",omitempty"], the
    example of the claim. *)
Lemma C10_flattened_field_has_no_entry :
  namePart (jsonTagOf (embedded "Inner" (named "Inner"))) <> "-"
  /\ jsonNameOfField (embedded "Inner" (named "Inner")) = "Inner"
  /\ synthesize 3 ∅ (named "Outer")
     = Ok ({[ "main.Outer" := modelOuter ]}, Some modelOuter)
  /\ Properties modelOuter !! "Inner" = None
  /\ ~ In "Inner" (Required modelOuter)
  /\ jsonTagOf embeddedOmitempty = ",omitempty"
  /\ jsonNameOfField embeddedOmitempty = reflect.FieldName embeddedOmitempty
  /\ addModel_field sampleDecls noMarshaler (addModel sampleDecls noMarshaler 2)
       "main.Outer" (∅, mkModel "main.Outer" [] ∅) embeddedOmitempty
     = Ok (∅, modelOuter).
Proof.
  split; [discriminate|]. split; [reflexivity|].
  split; [vm_compute; reflexivity|]. split; [vm_compute; reflexivity|].
  split; [intros [H|[]]; discriminate|].
  split; [reflexivity|]. split; [reflexivity|].
  vm_compute; reflexivity.
Qed.

(** C10. The JSON-visible name of a field is the name part of its json tag
    when that part is neither empty nor a dash, and the Go name of the field
    when the tag is absent or its name part empty (so for [",omitempty"]);
    the name is none exactly when the name part is a dash, and then the
    field is skipped: the Model and the registry stay as they are.  Every
    other field ends in [Properties] under its JSON name, except an embedded
    struct whose properties are merged: for it the loop stores nothing of its
    own, the Model is as the merge in [buildProperty] left it. *)
Theorem C10_json_name decls implementsMarshaler rec modelName
    (b : Models) (sm : Model) (field : reflect.StructField) :
  reflect.FieldName field <> "" ->
  jsonNameOfField field = jsonNameSpec field
  /\ (jsonTagOf field = ",omitempty" -> jsonNameOfField field = reflect.FieldName field)
  /\ (jsonNameOfField field = "" <-> namePart (jsonTagOf field) = "-")
  /\ (namePart (jsonTagOf field) = "-" ->
      addModel_field decls implementsMarshaler rec modelName (b, sm) field = Ok (b, sm))
  /\ (forall b' sm',
        namePart (jsonTagOf field) <> "-" ->
        isMerged decls implementsMarshaler field = false ->
        addModel_field decls implementsMarshaler rec modelName (b, sm) field
          = Ok (b', sm') ->
        is_Some (Properties sm' !! jsonNameOfField field))
  /\ (forall b' sm',
        isMerged decls implementsMarshaler field = true ->
        addModel_field decls implementsMarshaler rec modelName (b, sm) field
          = Ok (b', sm') ->
        exists prop,
          buildProperty decls implementsMarshaler rec b field sm modelName
          = Ok (b', sm', ("", prop))).
Proof.
  intros Hname. pose proof (jsonNameOfField_skips field Hname) as Hskip.
  split; [apply jsonNameOfField_spec|].
  split; [|split; [exact Hskip|split; [|split]]].
  - intros Htag. rewrite jsonNameOfField_spec. unfold jsonNameSpec.
    by rewrite Htag.
  - intros Hdash. apply Hskip in Hdash.
    unfold addModel_field, buildProperty. by rewrite Hdash.
  - intros b' sm' Hdash Hmerged H. unfold addModel_field in H. bind_inv H.
    destruct x as [[b1 sm1] [jsonName prop]].
    apply buildProperty_name_merged in Hrun. rewrite Hmerged in Hrun.
    simpl in Hrun. subst jsonName. rewrite length_zero_eqb in H.
    destruct (String.eqb_spec (jsonNameOfField field) "") as [Hempty|_];
      [apply Hskip in Hempty; done|].
    simpl in H. inversion H; subst. simpl. rewrite lookup_insert_eq. eauto.
  - intros b' sm' Hmerged H. unfold addModel_field in H. bind_inv H.
    destruct x as [[b1 sm1] [jsonName prop]].
    pose proof (buildProperty_name_merged _ _ _ _ _ _ _ _ Hrun) as Hjn.
    rewrite Hmerged in Hjn. simpl in Hjn. subst jsonName.
    cbn [String.length Nat.eqb negb] in H. inversion H; subst. eauto.
Qed.

Lemma C10_json_name_witness :
  reflect.FieldName (tagged "Hidden" tInt "-") <> ""
  /\ jsonNameOfField (tagged "Hidden" tInt "-") = ""
  /\ addModel_field sampleDecls noMarshaler (addModel sampleDecls noMarshaler 1)
       "main.Wrap" (∅, zeroModel) (tagged "Hidden" tInt "-") = Ok (∅, zeroModel)
  /\ reflect.FieldName (tagged "Note" tString ",omitempty") <> ""
  /\ jsonNameOfField (tagged "Note" tString ",omitempty") = "Note"
  /\ addModel_field sampleDecls noMarshaler (addModel sampleDecls noMarshaler 1)
       "main.Wrap" (∅, zeroModel) (tagged "Note" tString ",omitempty")
     = Ok (∅, putProperty "Note" (scalarOf "string" "") zeroModel)
  /\ is_Some (Properties (putProperty "Note" (scalarOf "string" "") zeroModel)
              !! jsonNameOfField (tagged "Note" tString ",omitempty"))
  /\ reflect.FieldName embeddedOmitempty <> ""
  /\ isMerged sampleDecls noMarshaler embeddedOmitempty = true
  /\ (exists prop,
        buildProperty sampleDecls noMarshaler (addModel sampleDecls noMarshaler 2)
          ∅ embeddedOmitempty (mkModel "main.Outer" [] ∅) "main.Outer"
        = Ok (∅, modelOuter, ("", prop))).
Proof.
  assert (Hhidden : reflect.FieldName (tagged "Hidden" tInt "-") <> "")
    by discriminate.
  assert (Hnote : reflect.FieldName (tagged "Note" tString ",omitempty") <> "")
    by discriminate.
  assert (Hinner : reflect.FieldName embeddedOmitempty <> "") by discriminate.
  destruct (C10_json_name sampleDecls noMarshaler (addModel sampleDecls noMarshaler 1)
              "main.Wrap" ∅ zeroModel (tagged "Hidden" tInt "-") Hhidden)
    as (_ & _ & Hskip & Hstep & _).
  destruct (C10_json_name sampleDecls noMarshaler (addModel sampleDecls noMarshaler 1)
              "main.Wrap" ∅ zeroModel (tagged "Note" tString ",omitempty") Hnote)
    as (_ & Hgo & _ & _ & Hstored & _).
  destruct (C10_json_name sampleDecls noMarshaler (addModel sampleDecls noMarshaler 2)
              "main.Outer" ∅ (mkModel "main.Outer" [] ∅) embeddedOmitempty Hinner)
    as (_ & _ & _ & _ & _ & Hmerged).
  assert (Hrun : addModel_field sampleDecls noMarshaler
                   (addModel sampleDecls noMarshaler 1) "main.Wrap" (∅, zeroModel)
                   (tagged "Note" tString ",omitempty")
                 = Ok (∅, putProperty "Note" (scalarOf "string" "") zeroModel))
    by (vm_compute; reflexivity).
  assert (Hflat : addModel_field sampleDecls noMarshaler
                    (addModel sampleDecls noMarshaler 2) "main.Outer"
                    (∅, mkModel "main.Outer" [] ∅) embeddedOmitempty
                  = Ok (∅, modelOuter))
    by (vm_compute; reflexivity).
  split; [exact Hhidden|]. split; [apply Hskip; reflexivity|].
  split; [apply Hstep; reflexivity|]. split; [exact Hnote|].
  split; [apply Hgo; reflexivity|]. split; [exact Hrun|].
  split; [apply (Hstored ∅); [discriminate | reflexivity | exact Hrun]|].
  split; [exact Hinner|]. split; [reflexivity|].
  exact (Hmerged ∅ modelOuter eq_refl Hflat).
Defined.

(* ===================================================================== *)
(** * The post-build hook *)
(* ===================================================================== *)

Lemma modelNameOf_no_override (st : reflect.rtype) : modelNameOf st "" = keyFrom st.
Proof. reflexivity. Qed.

(** C9, as stated, fails: a second top-level registration of the same
    buildable sample calls [PostBuildModel] not once but never, since
    [addModel] answers nil for a name that is present. *)
Lemma C9_second_registration_skips_hook :
  PostBuildModel buildableT = Some annotate
  /\ addModelFrom sampleDecls noMarshaler 2 ∅ buildableT
     = Ok ({[ "main.T" := modelAnnotatedT ]}, [modelT])
  /\ addModelFrom sampleDecls noMarshaler 2 {[ "main.T" := modelAnnotatedT ]} buildableT
     = Ok ({[ "main.T" := modelAnnotatedT ]}, [])
  /\ length ([] : list Model) <> 1.
Proof.
  split; [reflexivity|]. split; [vm_compute; reflexivity|].
  split; [vm_compute; reflexivity | discriminate].
Qed.

(** C9, amended. A top-level registration of a buildable sample calls
    [PostBuildModel] exactly once when [addModel] builds a Model, that is
    when the canonical name is neither classified primitive nor present in
    the registry: the call gets the finished Model (for a struct, the
    registry's entry under the canonical name), and the Model it returns is
    stored under its own [Id].  Otherwise the hook is not called and the
    registry stays as it is.  No sub-Model is ever handed to the hook: the
    Model of the sample is the only one in the list of calls. *)
Theorem C9_post_build_hook decls implementsMarshaler fuel (b : Models)
    (sample : Sample) (hook : Model -> option Model) b1 r :
  PostBuildModel sample = Some hook ->
  addModel decls implementsMarshaler fuel b (SampleType sample) "" = Ok (b1, r) ->
  match r with
  | Some m =>
      isPrimitiveType (keyFrom (SampleType sample)) = false
      /\ b !! keyFrom (SampleType sample) = None
      /\ Id m = keyFrom (SampleType sample)
      /\ (kindIs decls (SampleType sample) reflect.Struct = true ->
          b1 !! keyFrom (SampleType sample) = Some m)
      /\ addModelFrom decls implementsMarshaler fuel b sample
         = match hook m with
           | Some m' => Ok (<[Id m' := m']> b1, [m])
           | None => Err Panicked
           end
  | None =>
      (isPrimitiveType (keyFrom (SampleType sample)) = true
       \/ is_Some (b !! keyFrom (SampleType sample)))
      /\ b1 = b
      /\ addModelFrom decls implementsMarshaler fuel b sample = Ok (b, [])
  end.
Proof.
  intros Hhook Hrun. unfold addModelFrom. rewrite Hrun. simpl.
  apply addModel_post in Hrun as (_ & Hr & _).
  rewrite modelNameOf_no_override in Hr. destruct r as [m|].
  - destruct Hr as (Hprim & Habsent & _ & Hid & Hentry). rewrite Hhook.
    repeat split; auto. by destruct (hook m).
  - destruct Hr as [-> Hr]. auto.
Qed.

Lemma C9_post_build_hook_witness :
  PostBuildModel buildableT = Some annotate
  /\ addModel sampleDecls noMarshaler 2 ∅ (SampleType buildableT) ""
     = Ok ({[ "main.T" := modelT ]}, Some modelT)
  /\ addModelFrom sampleDecls noMarshaler 2 ∅ buildableT
     = Ok (<[ "main.T" := modelAnnotatedT ]> {[ "main.T" := modelT ]}, [modelT]).
Proof.
  assert (Hrun : addModel sampleDecls noMarshaler 2 ∅ (SampleType buildableT) ""
                 = Ok ({[ "main.T" := modelT ]}, Some modelT))
    by (vm_compute; reflexivity).
  split; [reflexivity|]. split; [exact Hrun|].
  pose proof (C9_post_build_hook sampleDecls noMarshaler 2 ∅ buildableT annotate
                _ _ eq_refl Hrun) as (_ & _ & _ & _ & H).
  rewrite H. vm_compute. reflexivity.
Defined.

(* ===================================================================== *)
(** * Cycles through pointers *)
(* ===================================================================== *)

Section Cycles.

Variable decls : string -> string -> option reflect.rtype.
Variable implementsMarshaler : reflect.rtype -> bool.

Lemma kindIs_declared_struct pkg name str fields k :
  decls pkg name = Some (reflect.StructOf str fields) ->
  kindIs decls (reflect.Defined pkg name) k = reflect.Kind_eqb reflect.Struct k.
Proof.
  intros Hdecl. unfold kindIs, reflect.TypeKind, reflect.underlying.
  by rewrite Hdecl.
Qed.

Lemma keyFrom_declared pkg name :
  name <> "" -> keyFrom (reflect.Defined pkg name) = pkg +:+ "." +:+ name.
Proof. intros Hname. unfold keyFrom. simpl. by destruct name. Qed.


Section Step.

Variable rec : Models -> reflect.rtype -> string -> result (Models * option Model).





End Step.




End Cycles.





(** The registries of the two cycles of the sample program, in full. *)
Lemma sample_cycles :
  synthesize 2 ∅ (named "Node") = Ok ({[ "main.Node" := modelNode ]}, Some modelNode)
  /\ synthesize 3 ∅ (named "Ping")
     = Ok ({[ "main.Ping" := modelPing; "main.Pong" := modelPong ]}, Some modelPing)
  /\ synthesize 1 ∅ (named "Node") = Err OutOfFuel
  /\ synthesize 2 ∅ (named "Ping") = Err OutOfFuel.
Proof. repeat split; vm_compute; reflexivity. Qed.

(* ===================================================================== *)
(** * Embedded structs *)
(* ===================================================================== *)




(** The whole of [Wrap]: the flattened [Link], the skipped [Hidden] and the
    optional [Note]. *)
Lemma sample_Wrap :
  synthesize 3 ∅ (named "Wrap")
  = Ok ({[ "main.Wrap" := modelWrap; "main.Leaf" := modelLeaf ]}, Some modelWrap).
Proof. vm_compute. reflexivity. Qed.

(* ===================================================================== *)
(** * Cycles through an embedded struct *)
(* ===================================================================== *)

(** The placeholder protects a registry, and the embedded case starts a new
    one: a cycle that runs through a flattened struct is not cut.  The
    recursion of the Go code has no end there; in the embedding every amount
    of fuel runs out. *)

Section EmbeddedCycle.

Variable decls : string -> string -> option reflect.rtype.
Variable implementsMarshaler : reflect.rtype -> bool.

Section Step.

Variable rec : Models -> reflect.rtype -> string -> result (Models * option Model).

Lemma isPlainField_tests field :
  isPlainField implementsMarshaler field = true ->
  String.eqb (jsonNameOfField field) "" = false
  /\ implementsMarshaler (reflect.FieldType field) = false
  /\ isStringAnnotated field = false.
Proof.
  unfold isPlainField. rewrite length_zero_eqb. intros H.
  apply andb_true_iff in H as [H Hann]. apply andb_true_iff in H as [Hname Hmar].
  by apply negb_true_iff in Hname, Hmar, Hann.
Qed.

Lemma addModel_field_pointer_fails modelName (b : Models) sm field tpkg tname str fields e :
  reflect.FieldType field = reflect.PtrTo (reflect.Defined tpkg tname) ->
  tname <> "" ->
  decls tpkg tname = Some (reflect.StructOf str fields) ->
  isPlainField implementsMarshaler field = true ->
  rec b (reflect.Defined tpkg tname) "" = Err e ->
  addModel_field decls implementsMarshaler rec modelName (b, sm) field = Err e.
Proof.
  intros Htype Htname Hdecl Hplain Hrec.
  apply isPlainField_tests in Hplain as (Hname & Hmar & Hann).
  unfold addModel_field, buildProperty.
  rewrite !length_zero_eqb, Hname, Hmar, Hann, Htype. simpl.
  unfold buildPointerTypeProperty. rewrite Htype. simpl.
  rewrite !(kindIs_declared_struct _ _ _ _ _ _ Hdecl). simpl.
  destruct (String.eqb_spec tname "") as [?|_]; [done|].
  by rewrite Hrec.
Qed.

Lemma addModel_field_embedded_fails modelName (b : Models) sm field e :
  isPlainField implementsMarshaler field = true ->
  isFlattened decls field = true ->
  rec ∅ (reflect.FieldType field) "" = Err e ->
  addModel_field decls implementsMarshaler rec modelName (b, sm) field = Err e.
Proof.
  intros Hplain Hflat Hrec.
  apply isPlainField_tests in Hplain as (Hname & Hmar & Hann).
  unfold isFlattened in Hflat.
  apply andb_true_iff in Hflat as [Hflat Htag].
  apply andb_true_iff in Hflat as [Hflat Hanon].
  apply andb_true_iff in Hflat as [Hflat Hsame].
  apply andb_true_iff in Hflat as [Hkind Hnamed].
  unfold addModel_field, buildProperty.
  rewrite !length_zero_eqb, Hname, Hmar, Hann, Hkind. simpl.
  unfold buildStructTypeProperty.
  rewrite length_zero_eqb. apply negb_true_iff in Hnamed.
  by rewrite Hnamed, Hsame, Hanon, Htag, Hrec.
Qed.

End Step.

(** A cycle through an embedded struct is not cut: when [pkgL.L] embeds
    [pkgK.K] as its first field and the first field of [pkgK.K] is a pointer
    to [pkgL.L], registering either of them never comes to an end.  The
    flattening works in a registry of its own, which is empty, so the name in
    progress is not found there; whatever the fuel, the recursion uses it
    up. *)
Lemma embedded_cycle_runs_out pkgL L strL fE postL pkgK K strK fP postK :
  L <> "" -> K <> "" ->
  isPrimitiveType (pkgL +:+ "." +:+ L) = false ->
  isPrimitiveType (pkgK +:+ "." +:+ K) = false ->
  pkgL +:+ "." +:+ L <> pkgK +:+ "." +:+ K ->
  decls pkgL L = Some (reflect.StructOf strL (fE :: postL)) ->
  decls pkgK K = Some (reflect.StructOf strK (fP :: postK)) ->
  reflect.FieldType fE = reflect.Defined pkgK K ->
  isPlainField implementsMarshaler fE = true ->
  isFlattened decls fE = true ->
  reflect.FieldType fP = reflect.PtrTo (reflect.Defined pkgL L) ->
  isPlainField implementsMarshaler fP = true ->
  forall fuel,
    (forall b : Models,
       b !! (pkgL +:+ "." +:+ L) = None ->
       addModel decls implementsMarshaler fuel b (reflect.Defined pkgL L) ""
       = Err OutOfFuel)
    /\ (forall b : Models,
          b !! (pkgK +:+ "." +:+ K) = None ->
          b !! (pkgL +:+ "." +:+ L) = None ->
          addModel decls implementsMarshaler fuel b (reflect.Defined pkgK K) ""
          = Err OutOfFuel).
Proof.
  intros HL HK HprimL HprimK Hdiff HdL HdK HtE HplainE HflatE HtP HplainP.
  induction fuel as [|fuel [IHL IHK]]; [split; reflexivity|].
  split.
  - intros b Hb. cbn [addModel]. unfold addModel_body.
    rewrite modelNameOf_no_override, keyFrom_declared by done.
    rewrite HprimL, Hb, !(kindIs_declared_struct _ _ _ _ _ _ HdL).
    cbn [reflect.Kind_eqb reflect.KindCode Nat.eqb orb negb].
    unfold reflect.TypeFields, reflect.underlying. rewrite HdL.
    cbn [reflect.fields_of_literal orPanic]. rewrite result_bind_Ok.
    cbn [foldResult].
    rewrite (addModel_field_embedded_fails _ _ _ _ _ OutOfFuel HplainE HflatE);
      [reflexivity|].
    rewrite HtE. apply IHK; apply lookup_empty.
  - intros b HbK HbL. cbn [addModel]. unfold addModel_body.
    rewrite modelNameOf_no_override, keyFrom_declared by done.
    rewrite HprimK, HbK, !(kindIs_declared_struct _ _ _ _ _ _ HdK).
    cbn [reflect.Kind_eqb reflect.KindCode Nat.eqb orb negb].
    unfold reflect.TypeFields, reflect.underlying. rewrite HdK.
    cbn [reflect.fields_of_literal orPanic]. rewrite result_bind_Ok.
    cbn [foldResult].
    rewrite (addModel_field_pointer_fails _ _ _ _ _ _ _ _ _ OutOfFuel
               HtP HL HdL HplainP); [reflexivity|].
    apply IHL. rewrite lookup_insert_ne; done.
Qed.

End EmbeddedCycle.

(** [Loop] embeds [Knot], and [Knot] points back at [Loop]. *)
Lemma embedded_cycle_runs_out_witness :
  isFlattened sampleDecls (embedded "Knot" (named "Knot")) = true
  /\ isPlainField noMarshaler (plain "Back" (reflect.PtrTo (named "Loop"))) = true
  /\ (forall fuel, synthesize fuel ∅ (named "Loop") = Err OutOfFuel).
Proof.
  split; [reflexivity|]. split; [reflexivity|].
  intros fuel.
  apply (embedded_cycle_runs_out sampleDecls noMarshaler
           "main" "Loop" "" (embedded "Knot" (named "Knot")) []
           "main" "Knot" "" (plain "Back" (reflect.PtrTo (named "Loop"))) []);
    try reflexivity; try discriminate.
Defined.

(** C1. The claim fails where the cycle runs through an embedded struct.
    [Node] holds a pointer to itself and embeds [Base], and [Base] holds a
    pointer to [Node].  [addModel] stores the placeholder of [main.Node] in
    the registry it was called on, but the embedded [Base] is flattened in a
    registry of its own, which starts empty: there [main.Node] is not found
    and is built again, and with it the embedded [Base], without end.
    Registering [Node] never returns, every amount of fuel runs out.  The
    same pointer in a struct without the embedded field is cut by the
    placeholder: [Node] of the sample program returns after two calls, with
    its Model referring to itself. *)
Theorem C1_embedded_cycle_never_returns :
  reflect.TypeFields tangledDecls (named "Node")
  = Some [ embedded "Base" (named "Base");
           plain "Next" (reflect.PtrTo (named "Node")) ]
  /\ reflect.TypeFields tangledDecls (named "Base")
     = Some [ plain "Owner" (reflect.PtrTo (named "Node")) ]
  /\ (forall fuel,
        addModel tangledDecls noMarshaler fuel ∅ (named "Node") "" = Err OutOfFuel)
  /\ addModel sampleDecls noMarshaler 2 ∅ (named "Node") ""
     = Ok ({[ "main.Node" := modelNode ]}, Some modelNode).
Proof.
  split; [reflexivity|]. split; [reflexivity|]. split; [|vm_compute; reflexivity].
  intros fuel.
  apply (embedded_cycle_runs_out tangledDecls noMarshaler
           "main" "Node" "" (embedded "Base" (named "Base"))
           [plain "Next" (reflect.PtrTo (named "Node"))]
           "main" "Base" "" (plain "Owner" (reflect.PtrTo (named "Node"))) []);
    try reflexivity; try discriminate.
Qed.

(* ===================================================================== *)
(** * Structs without flattened fields *)
(* ===================================================================== *)

Section PlainStructs.

Variable decls : string -> string -> option reflect.rtype.
Variable implementsMarshaler : reflect.rtype -> bool.
Variable rec : Models -> reflect.rtype -> string -> result (Models * option Model).

(** Only the embedded case of [buildStructTypeProperty] writes to the model
    under construction. *)
Lemma buildProperty_keeps_model b field model modelName out :
  isFlattened decls field = false ->
  buildProperty decls implementsMarshaler rec b field model modelName = Ok out ->
  out.1.2 = model /\ out.2.1 = jsonNameOfField field
  /\ Description out.2.2 = "".
Proof.
  unfold buildProperty, isFlattened. intros Hflat H.
  rewrite length_zero_eqb in H.
  destruct (String.eqb_spec (jsonNameOfField field) "") as [Hlen|Hlen].
  { inversion H; subst; simpl. auto. }
  destruct (implementsMarshaler _); [by inversion H; subst|].
  destruct (isStringAnnotated _); [by inversion H; subst|].
  destruct (kindIs _ _ reflect.Struct).
  { unfold buildStructTypeProperty in H. rewrite length_zero_eqb in H.
    destruct (String.eqb (reflect.TypeName _) "").
    - bind_inv H. destruct x as [b1 r]. by inversion H; subst.
    - destruct (_ && _ && _) eqn:Hemb.
      + simpl in Hflat. rewrite <- !andb_assoc in Hemb. congruence.
      + bind_inv H. destruct x as [b1 r]. by inversion H; subst. }
  destruct (_ || _).
  { unfold buildArrayTypeProperty in H. bind_inv H. bind_inv H. bind_inv H.
    destruct x1 as [b1 r]. by inversion H; subst. }
  destruct (kindIs _ _ reflect.Ptr).
  { unfold buildPointerTypeProperty in H. bind_inv H. destruct (_ || _).
    - bind_inv H. bind_inv H. destruct x1 as [b1 r]. by inversion H; subst.
    - destruct (String.eqb (reflect.TypeName x) ""); bind_inv H;
        destruct x0 as [b1 r]; by inversion H; subst. }
  destruct (kindIs _ _ reflect.String); [by inversion H; subst|].
  destruct (kindIs _ _ reflect.Map); [by inversion H; subst|].
  destruct (isPrimitiveType _); [by inversion H; subst|].
  destruct (String.eqb (reflect.TypeName (reflect.FieldType field)) "").
  - bind_inv H. destruct x as [b1 r]. by inversion H; subst.
  - by inversion H; subst.
Qed.

Lemma addModel_field_plain modelName b sm field b' sm' :
  isFlattened decls field = false ->
  addModel_field decls implementsMarshaler rec modelName (b, sm) field = Ok (b', sm') ->
  Required sm'
  = Required sm ++ (if isStored field && isPropertyRequired field
                    then [jsonNameOfField field] else [])
  /\ dom (Properties sm')
     = dom (Properties sm) ∪ (if isStored field
                              then {[ jsonNameOfField field ]} else ∅)
  /\ (isStored field = true ->
      exists p, Properties sm' !! jsonNameOfField field = Some p
                /\ Description p = reflect.Get (reflect.FieldTag field) "description").
Proof.
  intros Hflat H. unfold addModel_field in H. bind_inv H.
  destruct x as [[b1 sm1] [jsonName prop]].
  apply buildProperty_keeps_model in Hrun as (Hsm & Hjn & Hdesc); [|done].
  simpl in Hsm, Hjn, Hdesc. subst sm1 jsonName.
  rewrite length_zero_eqb in H. unfold isStored.
  destruct (String.eqb (jsonNameOfField field) ""); simpl in *.
  - inversion H; subst. rewrite app_nil_r, (right_id_L ∅ (∪)).
    split; [done|]. split; [done | discriminate].
  - inversion H; subst; simpl. split; [|split].
    + destruct (isPropertyRequired field); simpl; [done | by rewrite app_nil_r].
    + rewrite dom_insert_L.
      destruct (isPropertyRequired field); simpl; apply (comm_L (∪)).
    + intros _. eexists. split; [apply lookup_insert_eq|].
      destruct (String.eqb_spec (reflect.Get (reflect.FieldTag field) "description") "")
        as [->|Hne]; simpl; [exact Hdesc | reflexivity].
Qed.

Lemma addModel_fields_plain modelName fields :
  forallb (fun f => negb (isFlattened decls f)) fields = true ->
  forall b sm b' sm',
    foldResult (addModel_field decls implementsMarshaler rec modelName) (b, sm) fields
    = Ok (b', sm') ->
    Required sm' = Required sm ++ requiredNames fields
    /\ dom (Properties sm') = dom (Properties sm) ∪ propertyNames fields.
Proof.
  unfold requiredNames, propertyNames.
  induction fields as [|f fields IH]; intros Hplain b sm b' sm' H;
    cbn [foldResult forallb List.filter map] in *.
  - inversion H; subst. rewrite app_nil_r. split; [done|].
    cbn [list_to_set]. by rewrite (right_id_L ∅ (∪)).
  - apply andb_true_iff in Hplain as [Hf Hplain]. apply negb_true_iff in Hf.
    bind_inv H. destruct x as [b1 sm1].
    apply addModel_field_plain in Hrun as (Hreq1 & Hdom1 & _); [|done].
    destruct (IH Hplain _ _ _ _ H) as (Hreq & Hdom).
    rewrite Hreq, Hreq1, Hdom, Hdom1.
    destruct (isStored f); simpl.
    + rewrite <- (assoc_L (∪)).
      destruct (isPropertyRequired f); simpl; [|rewrite app_nil_r]; split;
        try done; by rewrite <- app_assoc.
    + by rewrite app_nil_r, (right_id_L ∅ (∪)).
Qed.

End PlainStructs.

Lemma find_app_split {A : Type} (test : A -> bool) (l1 l2 : list A) :
  List.find test (l1 ++ l2)
  = match List.find test l1 with
    | Some x => Some x
    | None => List.find test l2
    end.
Proof.
  induction l1 as [|x l1 IH]; simpl; [reflexivity|].
  by destruct (test x).
Qed.

Section PlainStructModels.

Variable decls : string -> string -> option reflect.rtype.
Variable implementsMarshaler : reflect.rtype -> bool.

(** The property under each name comes from the last stored field of that
    name. *)
Lemma addModel_fields_last rec modelName fields k :
  forallb (fun f => negb (isFlattened decls f)) fields = true ->
  forall b sm b' sm',
    foldResult (addModel_field decls implementsMarshaler rec modelName) (b, sm) fields
    = Ok (b', sm') ->
    match fieldStoredAs k fields with
    | Some f =>
        exists p, Properties sm' !! k = Some p /\ Description p = descriptionOf f
    | None => Properties sm' !! k = Properties sm !! k
    end.
Proof.
  unfold fieldStoredAs.
  induction fields as [|f fields IH]; intros Hplain b sm b' sm' H;
    cbn [foldResult forallb rev] in *.
  - by inversion H; subst.
  - apply andb_true_iff in Hplain as [Hf Hplain]. apply negb_true_iff in Hf.
    bind_inv H. destruct x as [b1 sm1].
    specialize (IH Hplain _ _ _ _ H). rewrite find_app_split.
    destruct (List.find _ (rev fields)) as [g|]; [exact IH|].
    rewrite IH. cbn [List.find].
    pose proof (addModel_field_plain _ _ _ _ _ _ _ _ _ Hf Hrun)
      as (_ & Hdom & Hstored).
    destruct (isStored f) eqn:Hst; simpl.
    + destruct (String.eqb_spec (jsonNameOfField f) k) as [<-|Hne].
      * by apply Hstored.
      * unfold addModel_field in Hrun. bind_inv Hrun.
        destruct x as [[b2 sm2] [jsonName prop]].
        apply buildProperty_keeps_model in Hrun0 as (Hsm & Hjn & _); [|done].
        simpl in Hsm, Hjn. subst sm2 jsonName.
        rewrite length_zero_eqb in Hrun. unfold isStored in Hst.
        apply negb_true_iff in Hst. rewrite Hst in Hrun. simpl in Hrun.
        inversion Hrun; subst. simpl. rewrite lookup_insert_ne by done.
        by destruct (isPropertyRequired f).
    + unfold addModel_field in Hrun. bind_inv Hrun.
      destruct x as [[b2 sm2] [jsonName prop]].
      apply buildProperty_keeps_model in Hrun0 as (Hsm & Hjn & _); [|done].
      simpl in Hsm, Hjn. subst sm2 jsonName.
      rewrite length_zero_eqb in Hrun. unfold isStored in Hst.
      apply negb_false_iff in Hst. rewrite Hst in Hrun. simpl in Hrun.
      by inversion Hrun; subst.
Qed.

(** A call of [addModel] that builds the Model of a struct ran the loop
    over its fields, from the placeholder on. *)
Lemma addModel_struct_inv fuel (b : Models) st nameOverride b' m fields :
  addModel decls implementsMarshaler fuel b st nameOverride = Ok (b', Some m) ->
  kindIs decls st reflect.Struct = true ->
  reflect.TypeFields decls st = Some fields ->
  exists fuel' b1,
    fuel = S fuel'
    /\ foldResult
         (addModel_field decls implementsMarshaler
            (addModel decls implementsMarshaler fuel') (modelNameOf st nameOverride))
         (<[modelNameOf st nameOverride := mkModel (modelNameOf st nameOverride) [] ∅]> b,
          mkModel (modelNameOf st nameOverride) [] ∅)
         fields
       = Ok (b1, m)
    /\ b' = <[modelNameOf st nameOverride := m]> b1.
Proof.
  intros H Hstruct Hfields. destruct fuel as [|fuel']; [discriminate|].
  exists fuel'. cbn [addModel] in H. unfold addModel_body in H.
  destruct (isPrimitiveType _); [discriminate|].
  destruct (b !! _); [discriminate|].
  assert (Hkinds : kindIs decls st reflect.Slice || kindIs decls st reflect.Array
                   = false).
  { unfold kindIs in *. by destruct (reflect.TypeKind decls st). }
  rewrite Hkinds, Hstruct, Hfields in H. cbn [negb orPanic] in H.
  rewrite result_bind_Ok in H. bind_inv H. destruct x as [b1 sm1].
  inversion H; subst. eauto.
Qed.

(** X3. [Required] follows the order of the fields: it lists, once per field,
    the JSON names of the fields that are stored and that
    [isPropertyRequired] accepts; [Properties] has exactly the JSON names of
    the stored fields. *)
Theorem required_follows_field_order fuel (b : Models) st nameOverride b' m fields :
  addModel decls implementsMarshaler fuel b st nameOverride = Ok (b', Some m) ->
  kindIs decls st reflect.Struct = true ->
  reflect.TypeFields decls st = Some fields ->
  forallb (fun f => negb (isFlattened decls f)) fields = true ->
  Required m = requiredNames fields
  /\ dom (Properties m) = propertyNames fields.
Proof.
  intros H Hstruct Hfields Hplain.
  destruct (addModel_struct_inv _ _ _ _ _ _ _ H Hstruct Hfields)
    as (fuel' & b1 & _ & Hloop & _).
  apply addModel_fields_plain in Hloop as [Hreq Hdom]; [|done].
  simpl in Hreq, Hdom. split; [exact Hreq|].
  by rewrite Hdom, dom_empty_L, (left_id_L ∅ (∪)).
Qed.

(** X4. When several fields have the same JSON name, the property of the last
    of them is the one that stays, with its description; a name no stored
    field has is not a property. *)
Theorem later_field_wins fuel (b : Models) st nameOverride b' m fields (k : string) :
  addModel decls implementsMarshaler fuel b st nameOverride = Ok (b', Some m) ->
  kindIs decls st reflect.Struct = true ->
  reflect.TypeFields decls st = Some fields ->
  forallb (fun f => negb (isFlattened decls f)) fields = true ->
  match fieldStoredAs k fields with
  | Some f => exists p, Properties m !! k = Some p /\ Description p = descriptionOf f
  | None => Properties m !! k = None
  end.
Proof.
  intros H Hstruct Hfields Hplain.
  destruct (addModel_struct_inv _ _ _ _ _ _ _ H Hstruct Hfields)
    as (fuel' & b1 & _ & Hloop & _).
  pose proof (addModel_fields_last _ _ _ k Hplain _ _ _ _ Hloop) as Hlast.
  destruct (fieldStoredAs k fields); [exact Hlast|].
  rewrite Hlast. apply lookup_empty.
Qed.

End PlainStructModels.

Lemma required_follows_field_order_witness :
  addModel readingDecls noMarshaler 3 ∅ (named "Reading") ""
  = Ok (registryReading, Some modelReading)
  /\ forallb (fun f => negb (isFlattened readingDecls f)) readingFields = true
  /\ requiredNames readingFields = ["id"; "id"; "site"; "Tags"]
  /\ Required modelReading = requiredNames readingFields
  /\ dom (Properties modelReading) = propertyNames readingFields.
Proof.
  assert (Hrun : addModel readingDecls noMarshaler 3 ∅ (named "Reading") ""
                 = Ok (registryReading, Some modelReading))
    by (vm_compute; reflexivity).
  split; [exact Hrun|]. split; [reflexivity|]. split; [reflexivity|].
  exact (required_follows_field_order readingDecls noMarshaler 3 ∅
           (named "Reading") "" _ _ readingFields Hrun eq_refl eq_refl eq_refl).
Defined.

Lemma later_field_wins_witness :
  addModel readingDecls noMarshaler 3 ∅ (named "Reading") ""
  = Ok (registryReading, Some modelReading)
  /\ fieldStoredAs "id" readingFields
     = Some (reflect.mkField "Note" tString
               [("json", "id"); ("description", "free text")] false)
  /\ exists p, Properties modelReading !! "id" = Some p
               /\ Description p = "free text".
Proof.
  assert (Hrun : addModel readingDecls noMarshaler 3 ∅ (named "Reading") ""
                 = Ok (registryReading, Some modelReading))
    by (vm_compute; reflexivity).
  split; [exact Hrun|]. split; [reflexivity|].
  exact (later_field_wins readingDecls noMarshaler 3 ∅ (named "Reading") "" _ _
           readingFields "id" Hrun eq_refl eq_refl eq_refl).
Defined.

(* ===================================================================== *)
(** * What [addModel] does to the registry *)
(* ===================================================================== *)

(** X5. [addModel] takes no name out of the registry.  It answers nil exactly
    for a model name that is classified primitive or present, and then the
    registry is the one it was given; otherwise the model name is in the
    registry afterwards. *)
Theorem addModel_only_adds decls implementsMarshaler fuel (b : Models) st
    nameOverride b' r :
  addModel decls implementsMarshaler fuel b st nameOverride = Ok (b', r) ->
  dom b ⊆ dom b'
  /\ (r = None <->
      isPrimitiveType (modelNameOf st nameOverride) = true
      \/ modelNameOf st nameOverride ∈ dom b)
  /\ (r = None -> b' = b)
  /\ (isPrimitiveType (modelNameOf st nameOverride) = false ->
      modelNameOf st nameOverride ∈ dom b').
Proof.
  intros H. apply addModel_post in H as ([Hdom _] & Hr & Hin).
  split; [exact Hdom|]. split; [|split; [|exact Hin]].
  - destruct r as [m|].
    + destruct Hr as (Hprim & Habsent & _). split; [discriminate|].
      intros [Hp|Hp]; [congruence|].
      apply elem_of_dom in Hp as [m0 Hp]. congruence.
    + destruct Hr as [_ [Hp|Hp]]; split; auto.
      intros _. right. by apply elem_of_dom.
  - intros ->. by destruct Hr.
Qed.

Lemma addModel_only_adds_witness :
  addModel sampleDecls noMarshaler 3 {[ "main.Leaf" := zeroModel ]} (named "Link") ""
  = Ok ({[ "main.Link" := modelLink; "main.Leaf" := zeroModel ]}, Some modelLink)
  /\ dom ({[ "main.Leaf" := zeroModel ]} : Models)
     ⊆ dom ({[ "main.Link" := modelLink; "main.Leaf" := zeroModel ]} : Models)
  /\ "main.Link" ∈ dom ({[ "main.Link" := modelLink; "main.Leaf" := zeroModel ]} : Models).
Proof.
  assert (Hrun : addModel sampleDecls noMarshaler 3 {[ "main.Leaf" := zeroModel ]}
                   (named "Link") ""
                 = Ok ({[ "main.Link" := modelLink; "main.Leaf" := zeroModel ]},
                       Some modelLink)) by (vm_compute; reflexivity).
  destruct (addModel_only_adds sampleDecls noMarshaler 3 _ _ _ _ _ Hrun)
    as (Hdom & _ & _ & Hin).
  split; [exact Hrun|]. split; [exact Hdom|]. by apply Hin.
Defined.

(* ===================================================================== *)
(** * The primitive test and the two tables *)
(* ===================================================================== *)

Lemma append_assoc_stdpp (s1 s2 s3 : string) :
  (s1 +:+ s2) +:+ s3 = s1 +:+ (s2 +:+ s3).
Proof.
  induction s1 as [|c s1 IH]; [reflexivity|].
  by rewrite !append_cons, IH.
Qed.

(** X6. A name that occurs within a primitive name is primitive as well: the
    test is closed under taking substrings. *)
Theorem isPrimitiveType_substring_closed (name part : string) :
  isPrimitiveType name = true ->
  GoStrings.Contains name part = true ->
  isPrimitiveType part = true.
Proof.
  unfold isPrimitiveType. rewrite !Contains_spec.
  intros (pre & post & Hname) (pre' & post' & ->).
  exists (pre +:+ pre'), (post' +:+ post). rewrite Hname.
  by rewrite !append_assoc_stdpp.
Qed.

Lemma isPrimitiveType_substring_closed_witness :
  isPrimitiveType "float64" = true
  /\ GoStrings.Contains "float64" "oat6" = true
  /\ isPrimitiveType "oat6" = true.
Proof.
  split; [reflexivity|]. split; [reflexivity|].
  exact (isPrimitiveType_substring_closed "float64" "oat6" eq_refl eq_refl).
Defined.

Lemma lookupTable_schemaType_primitive (name mapped : string) :
  lookupTable schemaTypeMap name = Some mapped -> isPrimitiveType name = true.
Proof.
  unfold lookupTable, schemaTypeMap. cbn [List.find fst snd].
  repeat match goal with
         | |- context [String.eqb ?a name] =>
             destruct (String.eqb_spec a name) as [<-|_]; [intros _; reflexivity|]
         end.
  discriminate.
Qed.

Lemma lookupTable_schemaFormat_mapped (name format : string) :
  lookupTable schemaFormatMap name = Some format ->
  exists mapped, lookupTable schemaTypeMap name = Some mapped.
Proof.
  unfold lookupTable at 1, schemaFormatMap. cbn [List.find fst snd].
  repeat match goal with
         | |- context [String.eqb ?a name] =>
             destruct (String.eqb_spec a name) as [<-|_];
               [intros _; eexists; reflexivity|]
         end.
  discriminate.
Qed.

(** X7. The tables know primitive names only: a name that is not classified
    primitive passes [jsonSchemaType] unchanged and has no format. *)
Theorem tables_map_primitives_only (name : string) :
  isPrimitiveType name = false ->
  jsonSchemaType name = name /\ jsonSchemaFormat name = "".
Proof.
  unfold jsonSchemaType, jsonSchemaFormat. intros Hprim.
  destruct (lookupTable schemaTypeMap name) as [mapped|] eqn:Htype.
  { apply lookupTable_schemaType_primitive in Htype. congruence. }
  split; [reflexivity|].
  destruct (lookupTable schemaFormatMap name) as [format|] eqn:Hformat; [|done].
  apply lookupTable_schemaFormat_mapped in Hformat as [mapped Hm]. congruence.
Qed.

Lemma tables_map_primitives_only_witness :
  isPrimitiveType "main.Celsius" = false
  /\ jsonSchemaType "main.Celsius" = "main.Celsius"
  /\ jsonSchemaFormat "main.Celsius" = "".
Proof.
  split; [reflexivity|].
  exact (tables_map_primitives_only "main.Celsius" eq_refl).
Defined.

(** X8. The two tables fit together: mapping a name twice is mapping it once
    (no mapped type is itself a key), and a name with a format is a name
    whose type the table changes. *)
Theorem schema_tables_fit (name : string) :
  jsonSchemaType (jsonSchemaType name) = jsonSchemaType name
  /\ (jsonSchemaFormat name = "" \/ jsonSchemaType name <> name).
Proof.
  split.
  - unfold jsonSchemaType at 2 3.
    destruct (lookupTable schemaTypeMap name) as [mapped|] eqn:Htype.
    + revert Htype. unfold lookupTable at 1, schemaTypeMap at 1.
      cbn [List.find fst snd].
      repeat match goal with
             | |- context [String.eqb ?a name] =>
                 destruct (String.eqb a name); [intros [= <-]; reflexivity|]
             end.
      discriminate.
    + unfold jsonSchemaType. by rewrite Htype.
  - unfold jsonSchemaFormat, jsonSchemaType.
    destruct (lookupTable schemaFormatMap name) as [format|] eqn:Hformat;
      [right | by left].
    apply lookupTable_schemaFormat_mapped in Hformat as [mapped Hm].
    rewrite Hm. revert Hm. unfold lookupTable, schemaTypeMap.
    cbn [List.find fst snd].
    repeat match goal with
           | |- context [String.eqb ?a name] =>
               destruct (String.eqb_spec a name) as [<-|_];
                 [intros [= <-]; discriminate|]
           end.
    discriminate.
Qed.

(* ===================================================================== *)
(** * Canonical names *)
(* ===================================================================== *)

Lemma Contains_cons (c : ascii) (s substr : string) :
  GoStrings.Contains (String c s) substr
  = String.prefix substr (String c s) || GoStrings.Contains s substr.
Proof. reflexivity. Qed.

Lemma prefix_empty (s : string) : String.prefix "" s = true.
Proof. by destruct s. Qed.

Lemma prefix_one (a c : ascii) (s : string) :
  String.prefix (String a "") (String c s) = Ascii.eqb a c.
Proof.
  cbn [String.prefix]. destruct (Ascii.ascii_dec a c) as [->|Hne].
  - by rewrite prefix_empty, Ascii.eqb_refl.
  - symmetry. by apply Ascii.eqb_neq.
Qed.

Lemma prefix_two (a a' c : ascii) (s : string) :
  String.prefix (String a (String a' "")) (String c s)
  = Ascii.eqb a c && String.prefix (String a' "") s.
Proof.
  cbn [String.prefix]. destruct (Ascii.ascii_dec a c) as [->|Hne].
  - rewrite Ascii.eqb_refl. by destruct s.
  - apply Ascii.eqb_neq in Hne. by rewrite Hne.
Qed.

Lemma replace_brackets_step (c : ascii) (s : string) :
  GoStrings.replace_from "[]" "||" (String c s) 0
  = if Ascii.eqb "[" c && String.prefix "]" s
    then String "|" (String "|" (GoStrings.replace_from "[]" "||" (GoStrings.tail1 s) 0))
    else String c (GoStrings.replace_from "[]" "||" s 0).
Proof.
  cbn [GoStrings.replace_from String.length Nat.sub]. rewrite prefix_two.
  destruct (Ascii.eqb "[" c && String.prefix "]" s) eqn:Hm; [|reflexivity].
  apply andb_true_iff in Hm as [_ Hm]. destruct s as [|d s]; [discriminate|].
  reflexivity.
Qed.

(** After the replacement no pair of brackets is left. *)
Lemma replace_brackets_none_left (s : string) :
  (GoStrings.Contains (GoStrings.Replace s "[]" "||") "[]" = false
   /\ (String.prefix "]" (GoStrings.Replace s "[]" "||") = true ->
       String.prefix "]" s = true))
  /\ forall c,
       GoStrings.Contains (GoStrings.Replace (String c s) "[]" "||") "[]" = false
       /\ (String.prefix "]" (GoStrings.Replace (String c s) "[]" "||") = true ->
           String.prefix "]" (String c s) = true).
Proof.
  unfold GoStrings.Replace.
  assert (Hstep : forall c s,
    GoStrings.Contains (GoStrings.replace_from "[]" "||" s 0) "[]" = false ->
    (String.prefix "]" (GoStrings.replace_from "[]" "||" s 0) = true ->
     String.prefix "]" s = true) ->
    GoStrings.Contains (GoStrings.replace_from "[]" "||" (GoStrings.tail1 s) 0) "[]"
    = false ->
    GoStrings.Contains (GoStrings.replace_from "[]" "||" (String c s) 0) "[]" = false
    /\ (String.prefix "]" (GoStrings.replace_from "[]" "||" (String c s) 0) = true ->
        String.prefix "]" (String c s) = true)).
  { intros c t Hc Hp Htail. rewrite replace_brackets_step.
    destruct (Ascii.eqb "[" c && String.prefix "]" t) eqn:Hm.
    - rewrite !Contains_cons, prefix_two, prefix_one, Htail. by split.
    - rewrite Contains_cons, prefix_two, !prefix_one, Hc, orb_false_r.
      split; [|done].
      destruct (String.prefix "]" (GoStrings.replace_from "[]" "||" t 0)) eqn:Hq;
        [|apply andb_false_r].
      by rewrite (Hp eq_refl), andb_true_r in *. }
  induction s as [|d s [[IHc IHp] IHcons]].
  - split; [split; [reflexivity | done]|]. intros c. by apply Hstep.
  - split; [apply IHcons|]. intros c.
    destruct (IHcons d) as [IHdc IHdp]. by apply Hstep.
Qed.

(** X9. The key of an unnamed type holds no pair of brackets, however
    the slices and arrays in it nest: every [[]] has become [||]. *)
Theorem keyFrom_has_no_bracket_pair (st : reflect.rtype) :
  reflect.TypeName st = "" ->
  GoStrings.Contains (keyFrom st) "[]" = false.
Proof.
  intros Hname. unfold keyFrom. rewrite Hname. cbn [String.length Nat.eqb].
  apply replace_brackets_none_left.
Qed.

Lemma keyFrom_has_no_bracket_pair_witness :
  reflect.TypeName (reflect.SliceOf (reflect.ArrayOf 2 (reflect.SliceOf (named "T")))) = ""
  /\ keyFrom (reflect.SliceOf (reflect.ArrayOf 2 (reflect.SliceOf (named "T"))))
     = "||[2]||main.T"
  /\ GoStrings.Contains
       (keyFrom (reflect.SliceOf (reflect.ArrayOf 2 (reflect.SliceOf (named "T")))))
       "[]" = false.
Proof.
  split; [reflexivity|]. split; [reflexivity|].
  exact (keyFrom_has_no_bracket_pair
           (reflect.SliceOf (reflect.ArrayOf 2 (reflect.SliceOf (named "T")))) eq_refl).
Defined.

(* ===================================================================== *)
(** * References and the models behind them *)
(* ===================================================================== *)

Lemma dotted_name_not_empty (a b : string) :
  String.eqb (a +:+ "." +:+ b) "" = false.
Proof. by destruct a. Qed.

Lemma kindIs_exclusive decls (t : reflect.rtype) (k1 k2 : reflect.Kind) :
  kindIs decls t k1 = true ->
  reflect.Kind_eqb k1 k2 = false ->
  kindIs decls t k2 = false.
Proof.
  unfold kindIs, reflect.Kind_eqb. intros H1 H2.
  apply Nat.eqb_eq in H1. by rewrite H1.
Qed.

Lemma refersTo_stored (sm : Model) (jsonName target : string) (required : bool)
    (descTag : string) :
  refersTo
    (putProperty jsonName
       (if negb (String.eqb descTag "")
        then setDescription descTag (setRef target zeroProperty)
        else setRef target zeroProperty)
       (if required then appendRequired jsonName sm else sm))
    jsonName target.
Proof.
  eexists. split; [apply lookup_insert_eq|].
  by destruct (negb (String.eqb descTag "")).
Qed.

(** X10. A field of a declared number or bool type (or of [uintptr], a complex
    number, a named function type) becomes a reference to the text of the
    type, and nothing is registered for it: the registry stays as it is. *)
Theorem named_scalar_reference_dangles decls implementsMarshaler rec modelName
    (b : Models) (sm : Model) (field : reflect.StructField) :
  isPlainField implementsMarshaler field = true ->
  isNamedScalar decls (reflect.FieldType field) = true ->
  exists sm',
    addModel_field decls implementsMarshaler rec modelName (b, sm) field = Ok (b, sm')
    /\ refersTo sm' (jsonNameOfField field)
         (reflect.TypeString (reflect.FieldType field)).
Proof.
  intros Hplain Hscalar.
  apply isPlainField_tests in Hplain as (Hname & Hmar & Hann).
  unfold isNamedScalar in Hscalar.
  repeat (apply andb_true_iff in Hscalar as [Hscalar ?]).
  repeat match goal with
         | H : negb _ = true |- _ => apply negb_true_iff in H
         end.
  unfold addModel_field, buildProperty.
  rewrite !length_zero_eqb, Hname, Hmar, Hann. cbn [negb].
  repeat match goal with
         | H : kindIs _ _ _ = false |- _ => rewrite H; clear H
         | H : isPrimitiveType _ = false |- _ => rewrite H; clear H
         | H : String.eqb (reflect.TypeName _) "" = false |- _ => rewrite H; clear H
         end.
  cbn [orb]. rewrite result_bind_Ok, length_zero_eqb, Hname. cbn [negb].
  eexists. split; [reflexivity|]. apply refersTo_stored.
Qed.

Lemma named_scalar_reference_dangles_witness :
  isPlainField noMarshaler
    (reflect.mkField "Temp" (named "Celsius")
       [("json", "temp,omitempty"); ("description", "degrees")] false) = true
  /\ isNamedScalar readingDecls (named "Celsius") = true
  /\ (exists sm',
        addModel_field readingDecls noMarshaler (addModel readingDecls noMarshaler 1)
          "main.Reading" (∅, zeroModel)
          (reflect.mkField "Temp" (named "Celsius")
             [("json", "temp,omitempty"); ("description", "degrees")] false)
        = Ok (∅, sm')
        /\ refersTo sm' "temp" "main.Celsius")
  /\ addModel readingDecls noMarshaler 3 ∅ (named "Reading") ""
     = Ok (registryReading, Some modelReading)
  /\ registryReading !! "main.Celsius" = None.
Proof.
  split; [reflexivity|]. split; [reflexivity|]. split.
  - exact (named_scalar_reference_dangles readingDecls noMarshaler
             (addModel readingDecls noMarshaler 1) "main.Reading" ∅ zeroModel
             (reflect.mkField "Temp" (named "Celsius")
                [("json", "temp,omitempty"); ("description", "degrees")] false)
             eq_refl eq_refl).
  - split; vm_compute; reflexivity.
Defined.

(** X11. A field whose type is an unnamed struct: the property refers to
    [<Id of the model>.<JSON name>], and a Model of that name is in the
    registry afterwards, unless the name is classified primitive. *)
Theorem anonymous_struct_named_after_field decls implementsMarshaler fuel modelName
    (b : Models) (sm : Model) (field : reflect.StructField) b' sm' :
  isPlainField implementsMarshaler field = true ->
  kindIs decls (reflect.FieldType field) reflect.Struct = true ->
  reflect.TypeName (reflect.FieldType field) = "" ->
  addModel_field decls implementsMarshaler (addModel decls implementsMarshaler fuel)
    modelName (b, sm) field = Ok (b', sm') ->
  refersTo sm' (jsonNameOfField field) (Id sm +:+ "." +:+ jsonNameOfField field)
  /\ dom b ⊆ dom b'
  /\ (isPrimitiveType (Id sm +:+ "." +:+ jsonNameOfField field) = false ->
      Id sm +:+ "." +:+ jsonNameOfField field ∈ dom b').
Proof.
  intros Hplain Hkind Hanon H.
  apply isPlainField_tests in Hplain as (Hname & Hmar & Hann).
  unfold addModel_field, buildProperty in H.
  rewrite !length_zero_eqb, Hname, Hmar, Hann, Hkind in H. cbn [negb] in H.
  unfold buildStructTypeProperty in H. rewrite Hanon in H.
  cbn [String.length Nat.eqb] in H.
  bind_inv H. bind_inv Hrun. destruct x0 as [b1 r]. inversion Hrun; subst; clear Hrun.
  rewrite length_zero_eqb, Hname in H. cbn [negb] in H. inversion H; subst; clear H.
  apply addModel_post in Hrun0 as ([Hdom _] & _ & Hin).
  unfold modelNameOf in Hin. rewrite dotted_name_not_empty in Hin. cbn [negb] in Hin.
  split; [apply refersTo_stored | auto].
Qed.

Lemma anonymous_struct_named_after_field_witness :
  isPlainField noMarshaler
    (tagged "Site" (reflect.StructOf "struct { Name string }" [plain "Name" tString])
       "site") = true
  /\ addModel_field readingDecls noMarshaler (addModel readingDecls noMarshaler 2)
       "main.Reading" (∅, mkModel "main.Reading" [] ∅)
       (tagged "Site" (reflect.StructOf "struct { Name string }" [plain "Name" tString])
          "site")
     = Ok ({[ "main.Reading.site" := modelSite ]},
           mkModel "main.Reading" ["site"] {[ "site" := refTo "main.Reading.site" ]})
  /\ refersTo (mkModel "main.Reading" ["site"] {[ "site" := refTo "main.Reading.site" ]})
       "site" "main.Reading.site"
  /\ "main.Reading.site" ∈ dom ({[ "main.Reading.site" := modelSite ]} : Models).
Proof.
  assert (Hrun :
    addModel_field readingDecls noMarshaler (addModel readingDecls noMarshaler 2)
      "main.Reading" (∅, mkModel "main.Reading" [] ∅)
      (tagged "Site" (reflect.StructOf "struct { Name string }" [plain "Name" tString])
         "site")
    = Ok ({[ "main.Reading.site" := modelSite ]},
          mkModel "main.Reading" ["site"] {[ "site" := refTo "main.Reading.site" ]}))
    by (vm_compute; reflexivity).
  destruct (anonymous_struct_named_after_field readingDecls noMarshaler 2
              "main.Reading" ∅ (mkModel "main.Reading" [] ∅)
              (tagged "Site"
                 (reflect.StructOf "struct { Name string }" [plain "Name" tString])
                 "site")
              {[ "main.Reading.site" := modelSite ]}
              (mkModel "main.Reading" ["site"]
                 {[ "site" := refTo "main.Reading.site" ]})
              eq_refl eq_refl eq_refl Hrun) as (Href & _ & Hin).
  split; [reflexivity|]. split; [exact Hrun|]. split; [exact Href|].
  by apply Hin.
Defined.

(** X12. A field that is a slice or array of a declared struct, or of pointers
    to one: the property is an array whose items refer to the struct by its
    name, and a Model of that name is in the registry afterwards. *)
Theorem list_of_structs_refers_and_registers decls implementsMarshaler fuel modelName
    (b : Models) (sm : Model) (field : reflect.StructField)
    (elem : reflect.rtype) pkg name str fields b' sm' :
  isPlainField implementsMarshaler field = true ->
  kindIs decls (reflect.FieldType field) reflect.Slice
  || kindIs decls (reflect.FieldType field) reflect.Array = true ->
  reflect.TypeElem decls (reflect.FieldType field) = Some elem ->
  (elem = reflect.Defined pkg name /\ isPrimitiveType name = false)
  \/ elem = reflect.PtrTo (reflect.Defined pkg name) ->
  name <> "" ->
  decls pkg name = Some (reflect.StructOf str fields) ->
  isPrimitiveType (pkg +:+ "." +:+ name) = false ->
  addModel_field decls implementsMarshaler (addModel decls implementsMarshaler fuel)
    modelName (b, sm) field = Ok (b', sm') ->
  (exists p,
     Properties sm' !! jsonNameOfField field = Some p
     /\ Type_ p = Some "array"
     /\ Ref p = None
     /\ Items p = Some (mkItem None (Some (pkg +:+ "." +:+ name))))
  /\ pkg +:+ "." +:+ name ∈ dom b'.
Proof.
  intros Hplain Hlist Helem Hshape Hname Hdecl Hprim H.
  apply isPlainField_tests in Hplain as (Hjn & Hmar & Hann).
  assert (Hstruct : kindIs decls (reflect.FieldType field) reflect.Struct = false).
  { apply orb_true_iff in Hlist as [Hk|Hk];
      by apply (kindIs_exclusive _ _ _ _ Hk). }
  unfold addModel_field, buildProperty in H.
  rewrite !length_zero_eqb, Hjn, Hmar, Hann, Hstruct, Hlist in H. cbn [negb] in H.
  unfold buildArrayTypeProperty, elemOf in H. rewrite Helem in H.
  cbn [orPanic] in H. rewrite result_bind_Ok in H.
  assert (Hkey : getElementTypeName decls modelName (jsonNameOfField field) elem
                 = pkg +:+ "." +:+ name).
  { unfold getElementTypeName. destruct Hshape as [[-> Hn]| ->].
    - rewrite (kindIs_declared_struct _ _ _ _ _ _ Hdecl). cbn [reflect.TypeName].
      destruct (String.eqb_spec name "") as [?|_]; [done|].
      rewrite Hn. by apply keyFrom_declared.
    - reflexivity. }
  assert (Hpointee :
    (if kindIs decls elem reflect.Ptr then reflect.TypeElem decls elem
     else reflect.TypeElem decls (reflect.FieldType field))
    = Some (reflect.Defined pkg name)).
  { destruct Hshape as [[-> Hn]| ->].
    - by rewrite (kindIs_declared_struct _ _ _ _ _ _ Hdecl).
    - reflexivity. }
  rewrite Hkey, Hprim in H.
  destruct (kindIs decls elem reflect.Ptr); rewrite Hpointee in H;
    cbn [orPanic] in H; rewrite result_bind_Ok in H;
    bind_inv H; bind_inv Hrun; destruct x0 as [b1 r];
    inversion Hrun; subst; clear Hrun;
    rewrite length_zero_eqb, Hjn in H; cbn [negb] in H; inversion H; subst; clear H;
    apply addModel_post in Hrun0 as (_ & _ & Hin);
    unfold modelNameOf in Hin; rewrite dotted_name_not_empty in Hin;
    cbn [negb] in Hin;
    (split; [|by apply Hin]);
    (eexists; split; [apply lookup_insert_eq|]);
    by destruct (negb (String.eqb _ "")).
Qed.

Lemma list_of_structs_refers_and_registers_witness :
  addModel_field readingDecls noMarshaler (addModel readingDecls noMarshaler 2)
    "main.Reading" (∅, mkModel "main.Reading" [] ∅)
    (tagged "Ptrs" (reflect.SliceOf (reflect.PtrTo (named "Tag"))) ",omitempty")
  = Ok ({[ "main.Tag" := modelTag ]},
        mkModel "main.Reading" [] {[ "Ptrs" := arrayOfRef "main.Tag" ]})
  /\ (exists p,
        Properties (mkModel "main.Reading" [] {[ "Ptrs" := arrayOfRef "main.Tag" ]})
          !! "Ptrs" = Some p
        /\ Type_ p = Some "array"
        /\ Ref p = None
        /\ Items p = Some (mkItem None (Some "main.Tag")))
  /\ "main.Tag" ∈ dom ({[ "main.Tag" := modelTag ]} : Models).
Proof.
  assert (Hrun :
    addModel_field readingDecls noMarshaler (addModel readingDecls noMarshaler 2)
      "main.Reading" (∅, mkModel "main.Reading" [] ∅)
      (tagged "Ptrs" (reflect.SliceOf (reflect.PtrTo (named "Tag"))) ",omitempty")
    = Ok ({[ "main.Tag" := modelTag ]},
          mkModel "main.Reading" [] {[ "Ptrs" := arrayOfRef "main.Tag" ]}))
    by (vm_compute; reflexivity).
  split; [exact Hrun|].
  exact (list_of_structs_refers_and_registers readingDecls noMarshaler 2
           "main.Reading" ∅ (mkModel "main.Reading" [] ∅)
           (tagged "Ptrs" (reflect.SliceOf (reflect.PtrTo (named "Tag"))) ",omitempty")
           (reflect.PtrTo (named "Tag")) "main" "Tag" ""
           [plain "Key" tString]
           {[ "main.Tag" := modelTag ]}
           (mkModel "main.Reading" [] {[ "Ptrs" := arrayOfRef "main.Tag" ]})
           eq_refl eq_refl eq_refl (or_intror eq_refl) ltac:(discriminate)
           eq_refl eq_refl Hrun).
Defined.

(** X13. A type that is not a struct, registered under a name that is neither
    primitive nor present, gets a Model without properties and without
    required names. *)
Theorem non_struct_model_is_empty decls implementsMarshaler fuel (b : Models) st
    nameOverride b' m :
  addModel decls implementsMarshaler fuel b st nameOverride = Ok (b', Some m) ->
  kindIs decls st reflect.Struct = false ->
  m = mkModel (modelNameOf st nameOverride) [] ∅.
Proof.
  intros H Hkind. destruct fuel as [|fuel]; [discriminate|].
  cbn [addModel] in H. unfold addModel_body in H.
  destruct (isPrimitiveType _); [discriminate|].
  destruct (b !! _); [discriminate|].
  rewrite Hkind in H. cbn [negb] in H.
  destruct (_ || _).
  - bind_inv H. bind_inv H. destruct x0 as [b1 r]. by inversion H.
  - by inversion H.
Qed.

Lemma non_struct_model_is_empty_witness :
  addModel sampleDecls noMarshaler 3 ∅ (reflect.SliceOf (named "T")) ""
  = Ok ({[ "||main.T" := mkModel "||main.T" [] ∅; "main.T" := modelT ]},
        Some (mkModel "||main.T" [] ∅))
  /\ kindIs sampleDecls (reflect.SliceOf (named "T")) reflect.Struct = false
  /\ mkModel "||main.T" [] ∅
     = mkModel (modelNameOf (reflect.SliceOf (named "T")) "") [] ∅.
Proof.
  assert (Hrun : addModel sampleDecls noMarshaler 3 ∅ (reflect.SliceOf (named "T")) ""
                 = Ok ({[ "||main.T" := mkModel "||main.T" [] ∅; "main.T" := modelT ]},
                       Some (mkModel "||main.T" [] ∅))) by (vm_compute; reflexivity).
  split; [exact Hrun|]. split; [reflexivity|].
  exact (non_struct_model_is_empty sampleDecls noMarshaler 3 ∅ _ "" _ _ Hrun eq_refl).
Defined.

(* ===================================================================== *)
(** * Validation of request entities *)
(* ===================================================================== *)

Lemma depth_field (vals : list Value) (i : nat) (v : Value) :
  vals !! i = Some v -> depth v <= max_list (List.map depth vals).
Proof.
  intros H. apply max_list_elem_of_le, list_elem_of_In, in_map, list_elem_of_In.
  by eapply list_elem_of_lookup_2.
Qed.

Lemma depth_elem (vals : list Value) (v : Value) :
  In v vals -> depth v <= max_list (List.map depth vals).
Proof.
  intros H. by apply max_list_elem_of_le, list_elem_of_In, in_map.
Qed.

Section ValidationFacts.

Variable decls : string -> string -> option reflect.rtype.

Lemma depthOf_ValueInterface (t : reflect.rtype) (v : Value) :
  depthOf (ValueInterface decls t v) <= depth v.
Proof.
  unfold ValueInterface. destruct (kindIs decls t reflect.Interface); [|done].
  destruct v; simpl; lia.
Qed.

Section Step.

Variable rec : Iface -> list string -> result (option GoError).

Lemma Validate_field_shallow (vals : list Value) (parents : list string) (i : nat)
    (field : reflect.StructField) (v : Value) :
  isShallow decls field = true ->
  vals !! i = Some v ->
  Validate_field decls rec (Some (VStruct vals)) parents i field
  = Ok (if isPresent field v then None
        else Some (errorsNew (requiredMessage field parents))).
Proof.
  unfold isShallow, isPresent, isIgnored, isBound, isDescended, formTag, bindingTag,
    Validate_field, ValueField, requiredMessage.
  intros Hshallow Hv. rewrite Hv. cbn [orPanic].
  destruct (String.eqb (reflect.Get (reflect.FieldTag field) "form") "-"); [done|].
  cbn [orb] in *. rewrite result_bind_Ok.
  apply andb_true_iff in Hshallow as [-> Hshallow]. rewrite result_bind_Ok.
  destruct (GoStrings.Contains (reflect.Get (reflect.FieldTag field) "binding")
              "required"); [|done].
  cbn [negb orb] in *. apply negb_true_iff, orb_false_iff in Hshallow as [-> Hslice].
  destruct (isZeroValue v); [by destruct parents|]. cbn [negb].
  destruct (kindIs decls (reflect.FieldType field) reflect.Slice); [|done].
  cbn [andb] in Hslice. unfold elemOf.
  destruct (reflect.TypeElem decls (reflect.FieldType field)); [|done].
  cbn [orPanic]. by rewrite result_bind_Ok, Hslice.
Qed.

Lemma Validate_fields_shallow (vals : list Value) (parents : list string)
    (fields : list reflect.StructField) (i : nat) :
  forallb (isShallow decls) fields = true ->
  length fields + i <= length vals ->
  Validate_fields decls rec (Some (VStruct vals)) parents i fields
  = Ok (errorsNew <$>
         ((fun f => requiredMessage f parents) <$> firstMissing fields (drop i vals))).
Proof.
  revert i. induction fields as [|field rest IH]; intros i Hshallow Hlen; [done|].
  cbn [forallb] in Hshallow. apply andb_true_iff in Hshallow as [Hfield Hrest].
  cbn [length] in Hlen.
  destruct (lookup_lt_is_Some_2 vals i) as [v Hv]; [lia|].
  cbn [Validate_fields]. rewrite (Validate_field_shallow _ _ _ _ _ Hfield Hv).
  rewrite result_bind_Ok. rewrite (drop_S _ _ _ Hv).
  unfold firstMissing. cbn [List.combine List.find fst snd].
  destruct (isPresent field v); cbn [negb]; [|done].
  rewrite IH; [done|done|lia].
Qed.



Lemma Validate_body_struct (obj : Iface) (typ : reflect.rtype) (vals : list Value)
    (fields : list reflect.StructField) (parents : list string) :
  structOrPointer typ vals obj ->
  kindIs decls typ reflect.Struct = true ->
  reflect.TypeFields decls typ = Some fields ->
  Validate_body decls rec obj parents
  = Validate_fields decls rec (Some (VStruct vals)) parents 0 fields.
Proof.
  intros [->| ->] Hkind Hfields; unfold Validate_body; cbn [orPanic];
    rewrite result_bind_Ok.
  - rewrite (kindIs_exclusive _ _ _ _ Hkind) by done.
    rewrite result_bind_Ok, Hkind, Hfields. cbn [orPanic]. by rewrite result_bind_Ok.
  - change (kindIs decls (reflect.PtrTo typ) reflect.Ptr) with true. cbn iota.
    change (elemOf decls (reflect.PtrTo typ)) with (Ok typ).
    rewrite !result_bind_Ok. cbn [ValueElem].
    rewrite Hkind, Hfields. cbn [orPanic]. by rewrite result_bind_Ok.
Qed.

End Step.

End ValidationFacts.

(** X14. [Validate] names the first required field, in the order of declaration,
    that holds the zero value of its type, with the whole [json] tag of the
    field as its name; it returns nil when there is none.  This is for a
    struct (or a pointer to one) whose fields are checked for presence only:
    a pointer, a map or a slice of pointers that is required need not be
    nil, what it holds is not looked at. *)
Theorem validate_reports_first_missing decls (fuel : nat) (obj : Iface)
    (typ : reflect.rtype) (fields : list reflect.StructField) (vals : list Value)
    (parents : list string) :
  structOrPointer typ vals obj ->
  kindIs decls typ reflect.Struct = true ->
  reflect.TypeFields decls typ = Some fields ->
  forallb (isShallow decls) fields = true ->
  length vals = length fields ->
  Validate decls (S fuel) obj parents
  = Ok (errorsNew <$>
         ((fun f => requiredMessage f parents) <$> firstMissing fields vals)).
Proof.
  intros Hobj Hkind Hfields Hshallow Hlen. cbn [Validate].
  rewrite (Validate_body_struct _ _ _ _ _ _ _ Hobj Hkind Hfields).
  rewrite Validate_fields_shallow by (done || lia). by rewrite drop_0.
Qed.

Lemma validate_reports_first_missing_witness :
  Validate orderDecls 1 (Some (named "Contact", VStruct (contactValues 7))) []
  = Ok None
  /\ Validate orderDecls 1
       (Some (reflect.PtrTo (named "Contact"), VPtr (VStruct (contactValues 0))))
       ["Parent"]
     = Ok (Some (errorsNew "Required id,omitempty on Parent")).
Proof.
  split.
  - exact (validate_reports_first_missing orderDecls 0
             (Some (named "Contact", VStruct (contactValues 7)))
             (named "Contact") contactFields (contactValues 7) []
             (or_introl eq_refl) eq_refl eq_refl eq_refl eq_refl).
  - exact (validate_reports_first_missing orderDecls 0
             (Some (reflect.PtrTo (named "Contact"), VPtr (VStruct (contactValues 0))))
             (named "Contact") contactFields (contactValues 0) ["Parent"]
             (or_intror eq_refl) eq_refl eq_refl eq_refl eq_refl).
Defined.



(** X16. [Validate] of a nil pointer to a struct panics at the first field that
    is not tagged [form:"-"]; it returns nil when every field is. *)
Theorem validate_nil_struct_pointer decls (fuel : nat) (typ : reflect.rtype)
    (fields : list reflect.StructField) (parents : list string) :
  kindIs decls typ reflect.Struct = true ->
  reflect.TypeFields decls typ = Some fields ->
  Validate decls (S fuel) (Some (reflect.PtrTo typ, VNil)) parents
  = if forallb isIgnored fields then Ok None else Err Panicked.
Proof.
  intros Hkind Hfields. cbn [Validate]. unfold Validate_body. cbn [orPanic].
  rewrite result_bind_Ok.
  change (kindIs decls (reflect.PtrTo typ) reflect.Ptr) with true. cbn iota.
  change (elemOf decls (reflect.PtrTo typ)) with (Ok typ).
  rewrite !result_bind_Ok. cbn [ValueElem].
  rewrite Hkind, Hfields. cbn [orPanic]. rewrite result_bind_Ok.
  generalize 0. clear Hfields.
  induction fields as [|field rest IH]; intros i; [done|].
  cbn [Validate_fields forallb]. unfold Validate_field at 1, isIgnored at 1, formTag.
  destruct (String.eqb (reflect.Get (reflect.FieldTag field) "form") "-"); [|done].
  rewrite result_bind_Ok. cbn [andb]. apply IH.
Qed.

Lemma validate_nil_struct_pointer_witness :
  Validate orderDecls 1 (Some (reflect.PtrTo (named "Line"), VNil)) []
  = Err Panicked.
Proof.
  exact (validate_nil_struct_pointer orderDecls 0 (named "Line") lineFields []
           eq_refl eq_refl).
Defined.








Lemma requiredOnly_step (r next : result (option GoError)) :
  requiredOnly r ->
  requiredOnly next ->
  requiredOnly (err ← r; match err with Some e => Ok (Some e) | None => next end).
Proof.
  intros [->|[->|[rest ->]]] Hnext.
  - by left.
  - by rewrite result_bind_Ok.
  - rewrite result_bind_Ok. right; right. by eexists.
Qed.

Section ValidationTotal.

Variable decls : string -> string -> option reflect.rtype.
Variable rec : Iface -> list string -> result (option GoError).
Variable bound : nat.
Hypothesis rec_requiredOnly :
  forall obj parents, depthOf obj < bound -> requiredOnly (rec obj parents).

Lemma Validate_field_requiredOnly (val : option Value) (parents : list string)
    (i : nat) (field : reflect.StructField) :
  (forall v, val = Some v -> depth v <= bound) ->
  requiredOnly (Validate_field decls rec val parents i field).
Proof.
  intros Hval. unfold Validate_field.
  destruct (String.eqb _ "-"); [by right; left|].
  destruct val as [[| | | | | | | |vals|]|]; try by left.
  cbn [ValueField]. destruct (vals !! i) as [fv|] eqn:Hfv; [|by left].
  cbn [orPanic]. rewrite result_bind_Ok.
  destruct (isExported _); [|by left]. rewrite result_bind_Ok.
  assert (Hdepth : depthOf (ValueInterface decls (reflect.FieldType field) fv) < bound).
  { eapply Nat.le_lt_trans; [apply depthOf_ValueInterface|].
    specialize (Hval _ eq_refl). cbn [depth] in Hval.
    apply depth_field in Hfv. lia. }
  destruct (GoStrings.Contains _ "required"); [|by right; left].
  destruct (kindIs decls (reflect.FieldType field) reflect.Struct).
  { destruct (isZeroValue fv); [right; right; by eexists|].
    by apply rec_requiredOnly. }
  destruct (isZeroValue fv).
  { destruct parents; right; right; by eexists. }
  destruct (kindIs decls (reflect.FieldType field) reflect.Slice); [|by right; left].
  unfold elemOf. destruct (reflect.TypeElem decls _) as [elem|]; [|by left].
  cbn [orPanic]. rewrite result_bind_Ok.
  destruct (kindIs decls elem reflect.Struct); [|by right; left].
  by apply rec_requiredOnly.
Qed.

Lemma Validate_fields_requiredOnly (val : option Value) (parents : list string)
    (fields : list reflect.StructField) (i : nat) :
  (forall v, val = Some v -> depth v <= bound) ->
  requiredOnly (Validate_fields decls rec val parents i fields).
Proof.
  intros Hval. revert i.
  induction fields as [|field rest IH]; intros i; [by right; left|].
  cbn [Validate_fields]. apply requiredOnly_step; [|apply IH].
  by apply Validate_field_requiredOnly.
Qed.

Lemma firstError_requiredOnly (elem : reflect.rtype) (elems : list Value) :
  (forall v, In v elems -> depth v < bound) ->
  requiredOnly
    (firstError (fun v => rec (ValueInterface decls elem v) []) elems).
Proof.
  induction elems as [|v elems IH]; intros Hdepth; [by right; left|].
  cbn [firstError]. apply requiredOnly_step.
  - apply rec_requiredOnly. eapply Nat.le_lt_trans; [apply depthOf_ValueInterface|].
    apply Hdepth. by left.
  - apply IH. intros w Hw. apply Hdepth. by right.
Qed.

Lemma Validate_body_requiredOnly (obj : Iface) (parents : list string) :
  depthOf obj <= bound ->
  requiredOnly (Validate_body decls rec obj parents).
Proof.
  intros Hdepth. unfold Validate_body.
  destruct obj as [[typ val]|]; [|by left]. cbn [orPanic depthOf] in *.
  rewrite result_bind_Ok.
  assert (Hrest : forall typ' (val' : option Value),
    (forall v, val' = Some v -> depth v <= bound) ->
    requiredOnly
      (if kindIs decls typ' reflect.Struct
       then fields ← orPanic (reflect.TypeFields decls typ');
            Validate_fields decls rec val' parents 0 fields
       else if kindIs decls typ' reflect.Slice
            then elems ← ValueElems val';
                 elem ← elemOf decls typ';
                 firstError (fun v => rec (ValueInterface decls elem v) []) elems
            else Ok None)).
  { intros typ' val' Hval'.
    destruct (kindIs decls typ' reflect.Struct).
    - destruct (reflect.TypeFields decls typ') as [fields|]; [|by left].
      cbn [orPanic]. rewrite result_bind_Ok.
      by apply Validate_fields_requiredOnly.
    - destruct (kindIs decls typ' reflect.Slice); [|by right; left].
      destruct val' as [[| | | | | |elems| | |]|]; try by left.
      + cbn [ValueElems]. rewrite result_bind_Ok. unfold elemOf.
        destruct (reflect.TypeElem decls typ'); [|by left].
        cbn [orPanic]. rewrite result_bind_Ok. by right; left.
      + cbn [ValueElems]. rewrite result_bind_Ok. unfold elemOf.
        destruct (reflect.TypeElem decls typ'); [|by left].
        cbn [orPanic]. rewrite result_bind_Ok.
        apply firstError_requiredOnly. intros v Hv.
        specialize (Hval' _ eq_refl). cbn [depth] in Hval'.
        apply depth_elem in Hv. lia. }
  destruct (kindIs decls typ reflect.Ptr).
  - destruct (elemOf decls typ) as [typ'|e] eqn:Helem.
    2: { unfold elemOf in Helem. destruct (reflect.TypeElem decls typ); [done|].
         inversion Helem. by left. }
    rewrite !result_bind_Ok. apply Hrest.
    intros v Hv. destruct val; try discriminate. cbn [ValueElem] in Hv.
    inversion Hv; subst. cbn [depth] in Hdepth. lia.
  - rewrite result_bind_Ok. apply Hrest. intros v Hv. by inversion Hv; subst.
Qed.

End ValidationTotal.

Lemma Validate_requiredOnly decls (fuel : nat) (obj : Iface) (parents : list string) :
  depthOf obj < fuel ->
  requiredOnly (Validate decls fuel obj parents).
Proof.
  revert obj parents. induction fuel as [|fuel IH]; intros obj parents Hdepth; [lia|].
  cbn [Validate]. apply (Validate_body_requiredOnly decls _ fuel); [|lia].
  intros obj' parents' Hdepth'. by apply IH.
Qed.

(** X19. [Validate] comes to an end on every value, and what it returns is nil
    or an error of [errors.New] whose text starts with [Required], unless it
    panics: [fuel] beyond the depth of the value is never used up. *)
Theorem validate_returns_required_only decls (fuel : nat) (typ : reflect.rtype)
    (v : Value) (parents : list string) :
  depth v < fuel ->
  Validate decls fuel (Some (typ, v)) parents = Err Panicked
  \/ Validate decls fuel (Some (typ, v)) parents = Ok None
  \/ exists rest,
       Validate decls fuel (Some (typ, v)) parents
       = Ok (Some (errorsNew ("Required " +:+ rest))).
Proof.
  intros Hdepth. by apply (Validate_requiredOnly decls fuel (Some (typ, v)) parents).
Qed.

Lemma validate_returns_required_only_witness :
  depth (VStruct (orderValues 7 (addressValue "Oslo") (VSlice [lineValue ""]))) < 5
  /\ (Validate orderDecls 5
        (Some (named "Order",
               VStruct (orderValues 7 (addressValue "Oslo") (VSlice [lineValue ""]))))
        [] = Err Panicked
      \/ Validate orderDecls 5
           (Some (named "Order",
                  VStruct (orderValues 7 (addressValue "Oslo") (VSlice [lineValue ""]))))
           [] = Ok None
      \/ exists rest,
           Validate orderDecls 5
             (Some (named "Order",
                    VStruct (orderValues 7 (addressValue "Oslo")
                               (VSlice [lineValue ""]))))
             [] = Ok (Some (errorsNew ("Required " +:+ rest)))).
Proof.
  split; [vm_compute; lia|].
  exact (validate_returns_required_only orderDecls 5 (named "Order")
           (VStruct (orderValues 7 (addressValue "Oslo") (VSlice [lineValue ""]))) []
           ltac:(vm_compute; lia)).
Defined.

(* ===================================================================== *)
(** * Requests *)
(* ===================================================================== *)

Section RequestFacts.

Context {Reader : Type}.
Variables MIME_XML MIME_JSON HEADER_ContentType : string.
Variable ReadAll : Reader -> list Byte.byte * option GoError * Reader.
Variable NewReader : list Byte.byte -> Reader.
Variables xmlDecode jsonDecode : Reader -> Iface -> Iface * option GoError * Reader.
Variable decls : string -> string -> option reflect.rtype.

Lemma cachingReadEntity_cached (g : Settings) (fuel : nat) (r : Request Reader)
    (contentType : string) (entityPointer : Iface) (buffer : list Byte.byte) :
  bodyContent r = Some buffer ->
  cachingReadEntity MIME_XML MIME_JSON ReadAll NewReader xmlDecode jsonDecode decls
    g fuel r contentType entityPointer
  = ('(_, entity, err) ← decodeEntity MIME_XML MIME_JSON xmlDecode jsonDecode decls
                           g fuel (NewReader buffer) contentType entityPointer;
     Ok (r, entity, err)).
Proof. intros H. unfold cachingReadEntity. by rewrite H. Qed.

(** X20. With the cache on, the first [ReadEntity] that reads the body to its
    end keeps the bytes; every later [ReadEntity] leaves the request as it
    is, does not touch the body again and decodes those bytes, under the
    content type of the header. *)
Theorem cached_body_is_replayed (g : Settings) (fuel : nat) (r : Request Reader)
    (entityPointer : Iface) (buffer : list Byte.byte) (body : Reader)
    (r1 : Request Reader) (entity1 : Iface) (err1 : option GoError) :
  doCacheReadEntityBytes g = true ->
  bodyContent r = None ->
  ReadAll (Body (Request_Request r)) = (buffer, None, body) ->
  ReadEntity MIME_XML MIME_JSON HEADER_ContentType ReadAll NewReader xmlDecode
    jsonDecode decls g fuel r entityPointer = Ok (r1, entity1, err1) ->
  r1 = setBodyContent buffer (setBody body r)
  /\ forall (g' : Settings) (fuel' : nat) (entityPointer' : Iface),
       doCacheReadEntityBytes g' = true ->
       ReadEntity MIME_XML MIME_JSON HEADER_ContentType ReadAll NewReader xmlDecode
         jsonDecode decls g' fuel' r1 entityPointer'
       = ('(_, entity, err) ←
            decodeEntity MIME_XML MIME_JSON xmlDecode jsonDecode decls g' fuel'
              (NewReader buffer)
              (Header_Get (Request_Request r) HEADER_ContentType) entityPointer';
          Ok (r1, entity, err)).
Proof.
  intros Hcache Hfresh Hread Hfirst.
  unfold ReadEntity in Hfirst. rewrite Hcache in Hfirst.
  unfold cachingReadEntity in Hfirst. rewrite Hfresh, Hread in Hfirst.
  destruct (decodeEntity _ _ _ _ _ _ _ _ _ _) as [[[reader entity] err]|e];
    [|discriminate].
  rewrite result_bind_Ok in Hfirst. inversion Hfirst; subst; clear Hfirst.
  split; [done|]. intros g' fuel' entityPointer' Hcache'.
  unfold ReadEntity. rewrite Hcache'.
  by rewrite (cachingReadEntity_cached _ _ _ _ _ buffer).
Qed.

Lemma attributes_setAttributes (sets : list (string * Iface)) (r : Request Reader)
    (name : string) :
  attributes (setAttributes sets r) !! name
  = match List.find (fun nv => String.eqb (fst nv) name) (rev sets) with
    | Some nv => Some (snd nv)
    | None => attributes r !! name
    end.
Proof.
  induction sets as [|nv sets IH] using rev_ind; [done|].
  unfold setAttributes in *. rewrite foldl_app, rev_unit.
  cbn [foldl List.find SetAttribute attributes].
  destruct (String.eqb_spec (fst nv) name) as [->|Hne].
  - by rewrite lookup_insert_eq.
  - by rewrite lookup_insert_ne.
Qed.

Lemma setAttributes_keeps (sets : list (string * Iface)) (r : Request Reader) :
  Request_Request (setAttributes sets r) = Request_Request r
  /\ bodyContent (setAttributes sets r) = bodyContent r
  /\ pathParameters (setAttributes sets r) = pathParameters r
  /\ selectedRoutePath (setAttributes sets r) = selectedRoutePath r.
Proof.
  induction sets as [|nv sets IH] using rev_ind; [done|].
  unfold setAttributes in *. by rewrite foldl_app.
Qed.

(** X21. On a fresh request, after any number of [SetAttribute] calls,
    [Attribute] returns the value last set under the name and nil for a name
    never set; the calls change nothing else of the request, and every path
    parameter still reads as the empty string. *)
Theorem attribute_returns_last_set (h : httpRequest Reader)
    (sets : list (string * Iface)) (name : string) :
  Attribute (setAttributes sets (NewRequest h)) name = lastSet sets name
  /\ PathParameter (setAttributes sets (NewRequest h)) name = ""
  /\ Request_Request (setAttributes sets (NewRequest h)) = h
  /\ bodyContent (setAttributes sets (NewRequest h)) = None.
Proof.
  destruct (setAttributes_keeps sets (NewRequest h)) as (Hreq & Hbody & Hpath & _).
  unfold Attribute, PathParameter, lastSet.
  rewrite attributes_setAttributes, Hpath.
  split; [|done].
  by destruct (List.find _ (rev sets)).
Qed.

End RequestFacts.

Lemma cached_body_is_replayed_witness :
  sampleRead 2 sampleRequest (Some (reflect.PtrTo (named "Line"), VPtr (VStruct [VNil])))
  = Ok (setBodyContent [Byte.x7b; Byte.x7d] (setBody [] sampleRequest),
        Some (reflect.PtrTo (named "Line"), VPtr (VStruct [VString "A-1"])), None)
  /\ sampleRead 2 (setBodyContent [Byte.x7b; Byte.x7d] (setBody [] sampleRequest))
       (Some (reflect.PtrTo (named "Line"), VPtr (VStruct [VNil])))
     = Ok (setBodyContent [Byte.x7b; Byte.x7d] (setBody [] sampleRequest),
           Some (reflect.PtrTo (named "Line"), VPtr (VStruct [VString "A-1"])), None).
Proof.
  assert (Hfirst :
    sampleRead 2 sampleRequest
      (Some (reflect.PtrTo (named "Line"), VPtr (VStruct [VNil])))
    = Ok (setBodyContent [Byte.x7b; Byte.x7d] (setBody [] sampleRequest),
          Some (reflect.PtrTo (named "Line"), VPtr (VStruct [VString "A-1"])), None))
    by reflexivity.
  split; [exact Hfirst|].
  destruct (cached_body_is_replayed "application/xml" "application/json"
              "Content-Type" sampleReadAll sampleNewReader sampleXmlDecode
              sampleJsonDecode orderDecls initialSettings 2 sampleRequest
              (Some (reflect.PtrTo (named "Line"), VPtr (VStruct [VNil])))
              [Byte.x7b; Byte.x7d] []
              (setBodyContent [Byte.x7b; Byte.x7d] (setBody [] sampleRequest))
              (Some (reflect.PtrTo (named "Line"), VPtr (VStruct [VString "A-1"])))
              None eq_refl eq_refl eq_refl Hfirst) as [_ Hlater].
  unfold sampleRead. rewrite (Hlater initialSettings 2 _ eq_refl). reflexivity.
Defined.
